(** * api-academia-ia: the churn risk engine and its event consumer

    A shallow embedding of three pieces of the repository:
    - [churn_model.py]: the [ChurnPredictor] class (module [ChurnModel]);
    - [api/main.py]: the resource [AlunoRiscoChurn.get] (module [Api]);
    - [consumer.py]: the callback [process_checkin_message] (module [Consumer]).

    Python floats are IEEE binary64 numbers, embedded as Rocq's primitive
    floats, so that comparisons against literals such as [0.7] and the
    quotients [30/7] are the very ones the interpreter evaluates.  Python
    integers are [Z], dictionaries used as maps are [gmap], [set] is [gset].

    Conventions of the embedding:
    - a request reads the clock several times; all its reads are one instant;
    - a variable that holds the [int] 0 on one path and a [float] on another
      is a float, 0 being [0.0];
    - scikit-learn, [json.loads] and the ISO calendar conversions are taken
      as functions, given as parameters;
    - calls on the broker channel and on the session do not raise, the query
      of the daily report apart;
    - a file on the disk is a pickle [joblib] reads, of an estimator or of a
      falsy object, and the path of the model can be written;
    - standard output encodes as UTF-8, Python's default: [print] raises on
      a lone surrogate and on nothing else;
    - [get] is the body of the risk handler, [get_aluno_risco_churn] the
      handler under its decorator, as the route serves it. *)

From Stdlib Require Import ZArith Floats Lia DecimalString.
From stdpp Require Import base option list sorting strings gmap sets.

Set Warnings "-inexact-float,-register-all".
#[local] Open Scope Z_scope.

(** ** Python numbers *)

Module PyFloat.

(** A Python [int] read as an unrounded binary number. *)
Definition Z2SF (z : Z) : spec_float :=
  match z with
  | Z0 => S754_zero false
  | Zpos p => S754_finite false p 0
  | Zneg p => S754_finite true p 0
  end.

(** [a / b] on two [int]s: the correctly rounded quotient. *)
Definition truediv_int (a b : Z) : float :=
  SF2Prim (SFdiv prec emax (Z2SF a) (Z2SF b)).

(** [float(z)], the conversion applied when an [int] meets a [float]. *)
Definition float_of_int (z : Z) : float := truediv_int z 1.

(** [num / den] rounded to the nearest integer, ties to even
    ([0 <= num], [0 < den]). *)
Definition round_half_even (num den : Z) : Z :=
  let q := num / den in
  let r := num mod den in
  match 2 * r ?= den with
  | Lt => q
  | Gt => q + 1
  | Eq => if Z.even q then q else q + 1
  end.

(** [m * 2^e * 10^nd] rounded to an integer: the decimal digits that
    CPython's correctly rounded float-to-decimal conversion produces for
    [nd] places after the point. *)
Definition scaled_digits (nd : nat) (m : positive) (e : Z) : Z :=
  if 0 <=? e then Zpos m * 2 ^ e * 10 ^ Z.of_nat nd
  else round_half_even (Zpos m * 10 ^ Z.of_nat nd) (2 ^ (- e)).

(** [round(x, nd)] on a float: round the exact binary value to [nd]
    decimals (ties to even), then take the nearest float of that decimal. *)
Definition py_round (x : float) (nd : nat) : float :=
  match Prim2SF x with
  | S754_finite s m e =>
      if 0 <=? e then x
      else
        let z := scaled_digits nd m e in
        let r := truediv_int z (10 ^ Z.of_nat nd) in
        if s then (- r)%float else r
  | _ => x
  end.

(** [numpy.rint]: the nearest integer, ties to even, as a float. *)
Definition rint (x : float) : float :=
  match Prim2SF x with
  | S754_finite s m e =>
      if 0 <=? e then x
      else
        let r := float_of_int (scaled_digits 0 m e) in
        if s then (- r)%float else r
  | _ => x
  end.

(** [round(x, nd)] on a [numpy.float64], which is what indexing the array
    of [predict_proba] yields: numpy scales by a power of ten, rounds to an
    integer and scales back, each step in floating point. *)
Definition np_round (x : float) (nd : nat) : float :=
  let f := float_of_int (10 ^ Z.of_nat nd) in
  (rint (x * f) / f)%float.

(** [str(z)] for an [int]. *)
Definition str_int (z : Z) : string := NilZero.string_of_int (Z.to_int z).

Definition digit (z : Z) : string :=
  String (Ascii.ascii_of_nat (48 + Z.to_nat (z mod 10))) EmptyString.

(** The [n] low decimal digits of [z], zero padded. *)
Fixpoint digits_fixed (n : nat) (z : Z) : string :=
  match n with
  | O => ""
  | S n' => digits_fixed n' (z / 10) +:+ digit z
  end.

(** [f"{x:.{nd}f}"]: fixed-point formatting with [nd >= 1] decimals. *)
Definition format_fixed (x : float) (nd : nat) : string :=
  let body (z : Z) :=
    str_int (z / 10 ^ Z.of_nat nd) +:+ "." +:+ digits_fixed nd z in
  match Prim2SF x with
  | S754_zero s => (if s then "-" else "") +:+ body 0
  | S754_infinity s => if s then "-inf" else "inf"
  | S754_nan => "nan"
  | S754_finite s m e =>
      (if s then "-" else "") +:+ body (scaled_digits nd m e)
  end.

End PyFloat.

(** ** [datetime] *)

Module Datetime.

(** A [datetime]: microseconds on its own wall clock since the epoch, and
    the UTC offset of its [tzinfo] in microseconds ([None] when naive). *)
Record datetime : Type := mk_datetime {
  wall : Z;
  tzinfo : option Z
}.

Definition usec_per_day : Z := 86400000000.

(** [timezone.utc] *)
Definition utc : Z := 0.

(** [d.replace(tzinfo=tz)]: same wall clock, new zone. *)
Definition replace_tzinfo (d : datetime) (tz : Z) : datetime :=
  {| wall := wall d; tzinfo := Some tz |}.

(** [datetime.now(timezone.utc)], the clock being read as [now]. *)
Definition now_utc (now : Z) : datetime :=
  {| wall := now; tzinfo := Some utc |}.

(** The instant an aware datetime denotes. *)
Definition instant (d : datetime) : Z :=
  match tzinfo d with
  | Some off => wall d - off
  | None => wall d
  end.

(** [a - b] on two aware datetimes: a [timedelta], in microseconds. *)
Definition sub (a b : datetime) : Z := instant a - instant b.

(** [timedelta.days]: timedeltas are normalised with a non-negative
    remainder, so this is the floor. *)
Definition days (td : Z) : Z := td / usec_per_day.

(** [timedelta(days=n)] *)
Definition timedelta_days (n : Z) : Z := n * usec_per_day.

(** [d - td] *)
Definition sub_timedelta (d : datetime) (td : Z) : datetime :=
  {| wall := wall d - td; tzinfo := tzinfo d |}.

(** [date.min] and [date.max], 0001-01-01 and 9999-12-31, as day numbers
    since the epoch. *)
Definition date_min : Z := -719162.
Definition date_max : Z := 2932896.

(** [d + td], which overflows when the sum leaves
    [datetime.min .. datetime.max]. *)
Definition add_timedelta (d : datetime) (td : Z) : option datetime :=
  let sum := wall d + td in
  if (date_min * usec_per_day <=? sum) && (sum <? (date_max + 1) * usec_per_day)
  then Some {| wall := sum; tzinfo := tzinfo d |}
  else None.

(** [a >= b] on two aware datetimes. *)
Definition ge (a b : datetime) : bool := instant b <=? instant a.

(** The instant of a stored timestamp, a naive one being read as UTC. *)
Definition utc_instant (d : datetime) : Z :=
  instant (match tzinfo d with
           | None => replace_tzinfo d utc
           | Some _ => d
           end).

End Datetime.

(** ** [churn_model.py] *)

Module ChurnModel.
Import PyFloat.

(** The dictionary of metrics a prediction is asked for. *)
Record features_data : Type := mk_features_data {
  frequencia_semanal : float;
  dias_desde_ultimo_checkin : Z;
  duracao_media_visitas_minutos : float;
  tipo_plano_encoded : Z
}.

(** A pandas column and a frame of named columns. *)
Inductive column : Type :=
  | IntCol (l : list Z)
  | FloatCol (l : list float).

Definition DataFrame : Type := list (string * column).

(** [df[name]], when the frame has such a column. *)
Fixpoint col_lookup (df : DataFrame) (name : string) : option column :=
  match df with
  | [] => None
  | (k, v) :: df' => if String.eqb k name then Some v else col_lookup df' name
  end.

(** [df[cols]]: the named columns, in the order asked. *)
Fixpoint select (df : DataFrame) (cols : list string) : DataFrame :=
  match cols with
  | [] => []
  | c :: cols' =>
      match col_lookup df c with
      | Some v => (c, v) :: select df cols'
      | None => select df cols'
      end
  end.

(** [df[name]] for a column that is there. *)
Definition col (df : DataFrame) (name : string) : column :=
  default (IntCol []) (col_lookup df name).

(** scikit-learn, as far as this class uses it: an estimator is built by
    fitting, with a solver and a seed, and scores one row of metrics with
    the probabilities of the two classes. *)
Class Sklearn : Type := {
  Estimator : Type;
  LogisticRegression_fit :
    forall (solver : string) (random_state : Z) (X : DataFrame) (y : column), Estimator;
  predict_proba : Estimator -> features_data -> float * float
}.

Section Predictor.
Context `{Sklearn}.

(** What [joblib.load] returns for a file: the estimator [joblib.dump] wrote
    there, or an object that is falsy (a pickled [None], say), which leaves
    the predictor without model. *)
Inductive pickle : Type :=
  | Dump (m : Estimator)
  | Falsy.

(** The files [joblib] finds, by path. *)
Definition FS : Type := gmap string pickle.

Record ChurnPredictor : Type := mk_ChurnPredictor {
  model : option Estimator;
  model_path : string;
  features : list string
}.

Definition create_dummy_data : DataFrame :=
  [ ("frequencia_semanal",
     FloatCol [5; 4; 1; 0.5; 3; 2; 0; 6; 1.5; 0.2; 4.5; 3.8; 0.8; 0; 5; 2.5; 1.2; 3.1]%float);
    ("dias_desde_ultimo_checkin",
     IntCol [1; 5; 10; 20; 3; 7; 40; 2; 15; 60; 4; 6; 25; 90; 8; 12; 18; 5]);
    ("duracao_media_visitas_minutos",
     IntCol [60; 55; 40; 25; 70; 50; 20; 65; 35; 15; 75; 68; 28; 10; 80; 48; 33; 62]);
    ("tipo_plano_encoded",
     IntCol [1; 2; 1; 1; 3; 2; 1; 3; 1; 1; 2; 3; 1; 1; 3; 2; 1; 3]);
    ("churn",
     IntCol [0; 0; 0; 1; 0; 0; 1; 0; 1; 1; 0; 0; 1; 1; 0; 0; 1; 0]) ].

(** [save_model]: dump the estimator, if there is one. *)
Definition save_model (self : ChurnPredictor) (fs : FS) : FS :=
  match model self with
  | Some m => <[model_path self := Dump m]> fs
  | None => fs
  end.

Definition train_model (self : ChurnPredictor) (fs : FS)
    (X : DataFrame) (y : column) : ChurnPredictor * FS :=
  let self :=
    {| model := Some (LogisticRegression_fit "liblinear" 42 X y);
       model_path := model_path self;
       features := features self |} in
  (self, save_model self fs).

Definition load_model (self : ChurnPredictor) (fs : FS) : ChurnPredictor * FS :=
  match fs !! model_path self with
  | Some loaded =>
      ({| model := match loaded with Dump m => Some m | Falsy => None end;
          model_path := model_path self;
          features := features self |}, fs)
  | None =>
      let df := create_dummy_data in
      let X := select df (features self) in
      let y := col df "churn" in
      train_model self fs X y
  end.

(** [ChurnPredictor(model_path)] *)
Definition init (path : string) (fs : FS) : ChurnPredictor * FS :=
  load_model
    {| model := None;
       model_path := path;
       features := ["frequencia_semanal"; "dias_desde_ultimo_checkin";
                    "duracao_media_visitas_minutos"; "tipo_plano_encoded"] |}
    fs.

Definition retrain_and_save_model (self : ChurnPredictor) (fs : FS)
    : ChurnPredictor * FS :=
  let new_df := create_dummy_data in
  let X_new := select new_df (features self) in
  let y_new := col new_df "churn" in
  train_model self fs X_new y_new.

Definition predict_churn_probability (self : ChurnPredictor) (fs : FS)
    (data : features_data) : option float * (ChurnPredictor * FS) :=
  let '(self, fs) :=
    match model self with
    | None => load_model self fs
    | Some _ => (self, fs)
    end in
  match model self with
  | None => (None, (self, fs))
  | Some m => (Some (snd (predict_proba m data)), (self, fs))
  end.

End Predictor.

End ChurnModel.

(** ** [api/main.py]: the risk query *)

Module Api.
Import PyFloat Datetime.
Export ChurnModel.

(** *** The rows the ORM hands over *)

Record Plano : Type := mk_Plano {
  plano_id : Z;
  nome_plano : string
}.

Record Aluno : Type := mk_Aluno {
  aluno_id : Z;
  nome : string;
  id_plano : Z;
  plano : option Plano
}.

Record Checkin : Type := mk_Checkin {
  checkin_id : Z;
  id_aluno : Z;
  timestamp_checkin : datetime;
  duracao_minutos : option Z
}.

Record Database : Type := mk_Database {
  alunos : list Aluno;
  checkins : list Checkin
}.

(** *** The returned payload *)

(** A value, or the string ["N/A"] put in its place. *)
Inductive or_na (A : Type) : Type :=
  | Value (a : A)
  | NA.
Arguments Value {A} a.
Arguments NA {A}.

Record RiscoChurnMetrics : Type := mk_RiscoChurnMetrics {
  metricas_frequencia_semanal : float;
  metricas_dias_desde_ultimo_checkin : or_na Z;
  metricas_duracao_media_visitas_minutos : float;
  metricas_tipo_plano_encoded : Z;
  total_checkins_registrados : Z
}.

Record RiscoChurnResponse : Type := mk_RiscoChurnResponse {
  resposta_aluno_id : Z;
  nome_aluno : string;
  risco_churn_classificacao : string;
  probabilidade_churn : or_na float;
  motivos : list string;
  metricas_calculadas : RiscoChurnMetrics
}.

(** How the body of the handler ends: with the dictionary it returns, or
    with the abort of [get_or_404]. *)
Inductive http_result : Type :=
  | Ok200 (body : RiscoChurnResponse)
  | Abort404.

(** What the client is answered. *)
Inductive http_response : Type :=
  | Response200 (payload : RiscoChurnResponse)
  | NotFound404
  | InternalServerError500.

(** [fields.Integer.format] and [fields.Float.format]: [int(value)] and
    [float(value)], which leave a number as it is and raise on the string
    ["N/A"]. *)
Definition format_number {A} (value : or_na A) : option A :=
  match value with
  | Value a => Some a
  | NA => None
  end.

(** [marshal(data, risco_churn_response_model)]: every field is formatted
    by its type in the model, the metrics by [risco_churn_metrics_model];
    [None] stands for the [MarshallingError] of a field that does not
    format. *)
Definition marshal (data : RiscoChurnResponse) : option RiscoChurnResponse :=
  probabilidade ← format_number (probabilidade_churn data);
  dias ← format_number
           (metricas_dias_desde_ultimo_checkin (metricas_calculadas data));
  Some
    {| resposta_aluno_id := resposta_aluno_id data;
       nome_aluno := nome_aluno data;
       risco_churn_classificacao := risco_churn_classificacao data;
       probabilidade_churn := Value probabilidade;
       motivos := motivos data;
       metricas_calculadas :=
         {| metricas_frequencia_semanal :=
              metricas_frequencia_semanal (metricas_calculadas data);
            metricas_dias_desde_ultimo_checkin := Value dias;
            metricas_duracao_media_visitas_minutos :=
              metricas_duracao_media_visitas_minutos (metricas_calculadas data);
            metricas_tipo_plano_encoded :=
              metricas_tipo_plano_encoded (metricas_calculadas data);
            total_checkins_registrados :=
              total_checkins_registrados (metricas_calculadas data) |} |}.

(** [@ns_alunos.marshal_with(risco_churn_response_model)] around a handler:
    what the handler returns is marshalled, and a [MarshallingError], which
    is no HTTP error, is answered with status 500; an abort passes
    through. *)
Definition marshal_with (resposta : http_result) : http_response :=
  match resposta with
  | Ok200 data =>
      match marshal data with
      | Some payload => Response200 payload
      | None => InternalServerError500
      end
  | Abort404 => NotFound404
  end.

(** *** Queries *)

(** [Aluno.query.get_or_404(id)] *)
Definition get_or_404 (db : Database) (id : Z) : option Aluno :=
  snd <$> list_find (fun a => aluno_id a = id) (alunos db).

(** [ORDER BY timestamp_checkin DESC]: [a] may stand before [b].  The column
    holds naive timestamps, ordered as they are; an aware one would be
    placed by its instant. *)
Definition desc (a b : Checkin) : Prop :=
  utc_instant (timestamp_checkin b) <= utc_instant (timestamp_checkin a).

#[global] Instance desc_dec : RelDecision desc.
Proof. intros a b. unfold desc. apply _. Defined.

(** [db.session.query(Checkin).filter_by(id_aluno=aluno.id)
      .order_by(Checkin.timestamp_checkin.desc()).all()] *)
Definition checkins_do_aluno (db : Database) (aluno : Aluno) : list Checkin :=
  merge_sort desc (filter (fun c => id_aluno c = aluno_id aluno) (checkins db)).

(** *** The metrics *)

Definition tipo_plano_encoded (aluno : Aluno) : Z :=
  match plano aluno with
  | Some p =>
      if String.eqb (nome_plano p) "Mensal" then 1
      else if String.eqb (nome_plano p) "Trimestral" then 2
      else if String.eqb (nome_plano p) "Anual" then 3
      else 0
  | None => 0
  end.

(** The [if ts.tzinfo is None: ts = ts.replace(tzinfo=timezone.utc)] step. *)
Definition assume_utc (ts : datetime) : datetime :=
  match tzinfo ts with
  | None => replace_tzinfo ts utc
  | Some _ => ts
  end.

Definition dias_desde_ultimo_checkin (now : Z) (hist : list Checkin) : Z :=
  match hist with
  | c :: _ =>
      let ultimo_checkin_timestamp := assume_utc (timestamp_checkin c) in
      let diferenca := sub (now_utc now) ultimo_checkin_timestamp in
      days diferenca
  | [] => 999
  end.

(** [sum([c.duracao_minutos for c in hist if c.duracao_minutos is not None])] *)
Definition total_duracao (hist : list Checkin) : Z :=
  foldr Z.add 0 (omap duracao_minutos hist).

Definition duracao_media_visitas_minutos (hist : list Checkin) : float :=
  let total_checkins := Z.of_nat (length hist) in
  if 0 <? total_checkins then
    if 0 <? total_duracao hist
    then truediv_int (total_duracao hist) total_checkins
    else 0%float
  else 0%float.

(** The test of the comprehension building [checkins_ultimos_30_dias]. *)
Definition nos_ultimos_30_dias (now : Z) (c : Checkin) : Prop :=
  ge (replace_tzinfo (timestamp_checkin c) utc)
     (sub_timedelta (now_utc now) (timedelta_days 30)).

#[global] Instance nos_ultimos_30_dias_dec now c : Decision (nos_ultimos_30_dias now c).
Proof. unfold nos_ultimos_30_dias. apply _. Defined.

(** A timestamp the column can hold: naive, or aware in UTC. *)
Definition naive_or_utc (c : Checkin) : Prop :=
  tzinfo (timestamp_checkin c) = None \/ tzinfo (timestamp_checkin c) = Some utc.

Definition checkins_ultimos_30_dias (now : Z) (hist : list Checkin) : list Checkin :=
  filter (nos_ultimos_30_dias now) hist.

Definition frequencia_semanal (now : Z) (hist : list Checkin) : float :=
  match last hist with
  | Some primeiro =>
      let primeiro_checkin_timestamp := assume_utc (timestamp_checkin primeiro) in
      let total_dias_ativo := days (sub (now_utc now) primeiro_checkin_timestamp) in
      let frequencia_semanal :=
        if 0 <? total_dias_ativo
        then (truediv_int (Z.of_nat (length hist)) total_dias_ativo * 7)%float
        else 0%float in
      let recentes := checkins_ultimos_30_dias now hist in
      if 0 <? Z.of_nat (length recentes)
      then (float_of_int (Z.of_nat (length recentes)) / truediv_int 30 7)%float
      else frequencia_semanal
  | None => 0%float
  end.

Definition aluno_metrics (aluno : Aluno) (now : Z) (hist : list Checkin)
    : features_data :=
  {| ChurnModel.frequencia_semanal := frequencia_semanal now hist;
     ChurnModel.dias_desde_ultimo_checkin := dias_desde_ultimo_checkin now hist;
     ChurnModel.duracao_media_visitas_minutos :=
       py_round (duracao_media_visitas_minutos hist) 1;
     ChurnModel.tipo_plano_encoded := tipo_plano_encoded aluno |}.

(** *** Tier and reasons *)

Definition motivo_muito_alta (p : float) : string :=
  "Probabilidade de Churn muito alta (" +:+ format_fixed p 2 +:+ ").".
Definition motivo_alta (p : float) : string :=
  "Probabilidade de Churn alta (" +:+ format_fixed p 2 +:+ ").".
Definition motivo_media (p : float) : string :=
  "Probabilidade de Churn média (" +:+ format_fixed p 2 +:+ ").".
Definition motivo_baixa (p : float) : string :=
  "Probabilidade de Churn baixa (" +:+ format_fixed p 2 +:+ ").".
Definition motivo_ultimo_checkin (dias : Z) : string :=
  "Último check-in há " +:+ str_int dias +:+ " dias.".
Definition motivo_duracao (x : float) : string :=
  "Duração média de visitas baixa (" +:+ format_fixed x 1 +:+ " min).".
Definition motivo_frequencia (x : float) : string :=
  "Frequência semanal abaixo de 1 (" +:+ format_fixed x 1 +:+ ").".
Definition motivo_modelo_indisponivel : string :=
  "Não foi possível gerar previsão de churn (modelo indisponível ou erro).".
Definition motivo_sem_checkins : string :=
  "Sem check-ins registrados para análise de churn.".

(** A reason of the probability tiers, or one of the two fixed messages. *)
Definition motivo_de_faixa (s : string) : Prop :=
  (exists p, s = motivo_muito_alta p \/ s = motivo_alta p
             \/ s = motivo_media p \/ s = motivo_baixa p)
  \/ s = motivo_modelo_indisponivel \/ s = motivo_sem_checkins.

(** One of the three reasons added after the tier. *)
Definition motivo_contextual (s : string) : Prop :=
  (exists dias, s = motivo_ultimo_checkin dias)
  \/ (exists x, s = motivo_duracao x)
  \/ (exists x, s = motivo_frequencia x).

(** The chain of [if churn_prob >= ...] tests: the tier and its reason. *)
Definition faixa (churn_prob : float) : string * string :=
  if (0.7 <=? churn_prob)%float then ("Muito Alto", motivo_muito_alta churn_prob)
  else if (0.5 <=? churn_prob)%float then ("Alto", motivo_alta churn_prob)
  else if (0.3 <=? churn_prob)%float then ("Médio", motivo_media churn_prob)
  else ("Baixo", motivo_baixa churn_prob).

(** The three reasons added after the tier, each under its own test. *)
Definition motivos_de_contexto (risco : string) (dias : Z)
    (duracao frequencia : float) (total_checkins : Z) : list string :=
  (if bool_decide (15 < dias) && negb (String.eqb risco "Baixo")
   then [motivo_ultimo_checkin dias] else [])
  ++ (if (duracao <? 30)%float && bool_decide (5 < total_checkins)
         && negb (String.eqb risco "Baixo")
      then [motivo_duracao duracao] else [])
  ++ (if (frequencia <? 1)%float && bool_decide (5 < total_checkins)
         && negb (String.eqb risco "Baixo")
      then [motivo_frequencia frequencia] else []).

(** From [risco_churn_classificacao = "Indeterminado"] down to the
    [else] of [if churn_prob is not None]. *)
Definition classificar (churn_prob : option float) (dias : Z)
    (duracao frequencia : float) (total_checkins : Z) : string * list string :=
  match churn_prob with
  | Some p =>
      let '(risco, motivo) := faixa p in
      (risco, motivo :: motivos_de_contexto risco dias duracao frequencia total_checkins)
  | None => ("Erro na Previsão", [motivo_modelo_indisponivel])
  end.

(** [list(set(motivos_risco))]: the distinct reasons, in the set's order. *)
Definition list_set (l : list string) : list string :=
  elements (list_to_set l : gset string).

(** Everything after the call of the predictor. *)
Definition avaliar (aluno : Aluno) (now : Z) (hist : list Checkin)
    (churn_prob : option float) : RiscoChurnResponse :=
  let dias := dias_desde_ultimo_checkin now hist in
  let total_checkins := Z.of_nat (length hist) in
  let duracao := duracao_media_visitas_minutos hist in
  let frequencia := frequencia_semanal now hist in
  let '(risco, motivos_risco) :=
    classificar churn_prob dias duracao frequencia total_checkins in
  let '(risco, motivos_risco, dias_out, duracao, frequencia) :=
    match hist with
    | [] => ("Indeterminado", [motivo_sem_checkins], NA, 0%float, 0%float)
    | _ :: _ => (risco, motivos_risco, Value dias, duracao, frequencia)
    end in
  {| resposta_aluno_id := aluno_id aluno;
     nome_aluno := nome aluno;
     risco_churn_classificacao := risco;
     probabilidade_churn :=
       match churn_prob with
       | Some p => Value (np_round p 2)
       | None => NA
       end;
     motivos := list_set motivos_risco;
     metricas_calculadas :=
       {| metricas_frequencia_semanal := py_round frequencia 2;
          metricas_dias_desde_ultimo_checkin := dias_out;
          metricas_duracao_media_visitas_minutos := py_round duracao 1;
          metricas_tipo_plano_encoded := tipo_plano_encoded aluno;
          total_checkins_registrados := total_checkins |} |}.

Section Get.
Context `{Sklearn}.

(** The body of [AlunoRiscoChurn.get(id)], with the store, the clock and
    the global [churn_predictor] (and the files it may touch) it runs
    against. *)
Definition get (db : Database) (now : Z)
    (churn_predictor : ChurnPredictor) (fs : FS) (id : Z)
    : http_result * (ChurnPredictor * FS) :=
  match get_or_404 db id with
  | None => (Abort404, (churn_predictor, fs))
  | Some aluno =>
      let hist := checkins_do_aluno db aluno in
      let '(churn_prob, st) :=
        predict_churn_probability churn_predictor fs
          (aluno_metrics aluno now hist) in
      (Ok200 (avaliar aluno now hist churn_prob), st)
  end.

(** [AlunoRiscoChurn.get] as the route [/alunos/<id>/risco-churn] serves it
    (documented as [get_aluno_risco_churn]): the body under its decorator
    [marshal_with]. *)
Definition get_aluno_risco_churn (db : Database) (now : Z)
    (churn_predictor : ChurnPredictor) (fs : FS) (id : Z)
    : http_response * (ChurnPredictor * FS) :=
  let '(resposta, st) := get db now churn_predictor fs id in
  (marshal_with resposta, st).

(** The prediction the query asks for, and the predictor it leaves. *)
Definition previsao (db : Database) (now : Z) (cp : ChurnPredictor) (fs : FS)
    (aluno : Aluno) : option float * (ChurnPredictor * FS) :=
  predict_churn_probability cp fs
    (aluno_metrics aluno now (checkins_do_aluno db aluno)).

End Get.

End Api.

(** ** [consumer.py]: the queue callback *)

Module Consumer.
Import Datetime.
Export Api.

(** What [json.loads] returns. *)
Inductive json : Type :=
  | JNull
  | JBool (b : bool)
  | JInt (z : Z)
  | JFloat (x : float)
  | JStr (s : string)
  | JArr (l : list json)
  | JObj (o : gmap string json).

(** The exceptions the callback can meet, all of them [Exception]s. *)
Inductive exn : Type :=
  | JSONDecodeError
  | AttributeError
  | TypeError
  | ValueError
  | OverflowError
  | UnicodeEncodeError
  | OperationalError.

(** *** Text

    A [str] is kept as the bytes of its UTF-8 encoding.  JSON can carry a
    lone surrogate (the escape [\ud800], say); it takes the three bytes
    ED A0..BF 80..BF, which UTF-8 proper leaves unused. *)

(** A byte 10xxxxxx, which continues a character. *)
Definition continuation (c : Ascii.ascii) : bool :=
  let n := Ascii.N_of_ascii c in (128 <=? n)%N && (n <? 192)%N.

(** The characters of a string, each as the bytes that encode it. *)
Fixpoint chars (s : string) : list string :=
  match s with
  | EmptyString => []
  | String c s' =>
      match s' with
      | String d _ =>
          if continuation d
          then match chars s' with
               | ch :: rest => String c ch :: rest
               | [] => [String c EmptyString]
               end
          else String c EmptyString :: chars s'
      | EmptyString => [String c EmptyString]
      end
  end.

(** A character that is a surrogate, U+D800 to U+DFFF. *)
Definition surrogate (ch : string) : bool :=
  match ch with
  | String a (String b _) =>
      (Ascii.N_of_ascii a =? 237)%N
      && (160 <=? Ascii.N_of_ascii b)%N && (Ascii.N_of_ascii b <? 192)%N
  | _ => false
  end.

(** Standard output encodes as UTF-8, which has no surrogates: whether
    [print] can write the text. *)
Definition encodable (s : string) : bool :=
  forallb (fun ch => negb (surrogate ch)) (chars s).

(** Whether [print] can write [f"{v}"]: a string goes out as it is; any
    other value goes out as its [repr], where the strings within are
    quoted with what cannot be printed escaped. *)
Definition printable_value (v : json) : bool :=
  match v with
  | JStr s => encodable s
  | _ => true
  end.

(** One constructor per [print] of the callback. *)
Inductive linha : Type :=
  | Recebida (message_type message_data : json)
  | ProcessandoIndividual (checkin_id id_aluno : json)
  | ProcessadoIndividual (checkin_id : json)
  | ProcessandoMassa (checkin_ids : json)
  | SubProcess (single_id : json)
  | MassaProcessados (n : Z)
  | GerandoRelatorio (report_date : Z)
  | RelatorioTitulo (report_date : Z)
  | RelatorioTotal (total_daily_checkins : Z)
  | RelatorioUnicos (total_unique_alunos : Z)
  | RelatorioGerado (report_date : Z)
  | AcionandoRetreinamento
  | RetreinamentoFinalizado
  | TipoDesconhecido (message_type message_data : json)
  | Confirmada (delivery_tag : Z)
  | ErroJson (body : string)
  | ErroProcessar (e : exn) (body : string).

Inductive nivel : Type := X | INFO | SUB_PROCESS | RELATORIO | WARNING | ERROR.

(** The bracketed tag each line starts with. *)
Definition nivel_de (l : linha) : nivel :=
  match l with
  | Recebida _ _ | Confirmada _ => X
  | SubProcess _ => SUB_PROCESS
  | RelatorioTitulo _ | RelatorioTotal _ | RelatorioUnicos _ => RELATORIO
  | TipoDesconhecido _ _ => WARNING
  | ErroJson _ | ErroProcessar _ _ => ERROR
  | _ => INFO
  end.

(** Whether the line can be written: the values it formats can.  Numbers,
    dates, the [bytes] of a payload and the text of an exception always
    can. *)
Definition printable (l : linha) : bool :=
  match l with
  | Recebida message_type message_data
  | TipoDesconhecido message_type message_data =>
      printable_value message_type && printable_value message_data
  | ProcessandoIndividual checkin_id id_aluno =>
      printable_value checkin_id && printable_value id_aluno
  | ProcessadoIndividual v | ProcessandoMassa v | SubProcess v =>
      printable_value v
  | _ => true
  end.

(** What the callback does to the outside, in the order it does it. *)
Inductive event : Type :=
  | Print (l : linha)
  | Sleep (milliseconds : Z)
  | SessionOpen
  | SessionQuery (start_of_day end_of_day : datetime)
  | SessionRollback
  | SessionClose
  | Retrain
  | BasicAck (delivery_tag : Z)
  | BasicNack (delivery_tag : Z).

(** How a piece of code ends: with a value, or raising. *)
Inductive outcome (A : Type) : Type :=
  | Return (a : A)
  | Raise (e : exn).
Arguments Return {A} a.
Arguments Raise {A} e.

Section Callback.
Context `{Sklearn}.

(** [json.loads] ([None]: the payload is not JSON), and the two calendar
    conversions of [datetime]: a date is a day number since the epoch. *)
Context (json_loads : string -> option json).
Context (fromisoformat : string -> option datetime).
Context (date_isoformat : Z -> string).

(** The process around the callback: what it has done so far, the clock,
    the check-in table ([None] when the store cannot be reached), the
    global [churn_predictor_consumer] and the files. *)
Record world : Type := mk_world {
  trace : list event;
  clock : Z;
  store : option (list Checkin);
  churn_predictor_consumer : ChurnPredictor;
  files : FS
}.

(** Code that may raise and acts on the world. *)
Definition M (A : Type) : Type := world -> outcome A * world.

Definition ret {A} (a : A) : M A := fun w => (Return a, w).
Definition raise {A} (e : exn) : M A := fun w => (Raise e, w).
Definition bind {A B} (m : M A) (k : A -> M B) : M B :=
  fun w =>
    match m w with
    | (Return a, w') => k a w'
    | (Raise e, w') => (Raise e, w')
    end.

#[global] Instance M_ret : MRet M := @ret.
#[global] Instance M_bind : MBind M := fun A B k m => bind m k.

Definition emit (e : event) : M unit :=
  fun w =>
    (Return tt,
     {| trace := trace w ++ [e]; clock := clock w; store := store w;
        churn_predictor_consumer := churn_predictor_consumer w;
        files := files w |}).

(** [print(line)], which raises on text standard output cannot encode. *)
Definition print (l : linha) : M unit :=
  if printable l then emit (Print l) else raise UnicodeEncodeError.

(** [time.sleep] *)
Definition sleep (milliseconds : Z) : M unit :=
  fun w =>
    (Return tt,
     {| trace := trace w ++ [Sleep milliseconds];
        clock := clock w + milliseconds * 1000; store := store w;
        churn_predictor_consumer := churn_predictor_consumer w;
        files := files w |}).

(** [try: m  except Exception: h] *)
Definition try_except {A} (m : M A) (h : exn -> M A) : M A :=
  fun w =>
    match m w with
    | (Return a, w') => (Return a, w')
    | (Raise e, w') => h e w'
    end.

(** [try: m  finally: f] *)
Definition try_finally {A} (m : M A) (f : M unit) : M A :=
  fun w =>
    match m w with
    | (r, w') =>
        match f w' with
        | (Return _, w'') => (r, w'')
        | (Raise e, w'') => (Raise e, w'')
        end
    end.

(** [v == 'literal'] *)
Definition eq_str (v : json) (literal : string) : bool :=
  match v with
  | JStr s => String.eqb s literal
  | _ => false
  end.

(** [d.get(key, default)]; only a [dict] has the method. *)
Definition dict_get (d : json) (key : string) (dflt : json) : M json :=
  match d with
  | JObj o => ret (default dflt (o !! key))
  | _ => raise AttributeError
  end.

(** The items a [for] loop draws from a value, where it can. *)
Definition iter (v : json) : M (list json) :=
  match v with
  | JArr l => ret l
  | JStr s => ret (JStr <$> chars s)
  | JObj o => ret ((fun kv => JStr kv.1) <$> map_to_list o)
  | _ => raise TypeError
  end.

Fixpoint for_each {A} (l : list A) (body : A -> M unit) : M unit :=
  match l with
  | [] => ret tt
  | a :: l' => body a;; for_each l' body
  end.

(** The rows of a day, or the error of a store that cannot be reached. *)
Definition rows_between (start_of_day end_of_day : datetime) : M (list Checkin) :=
  fun w =>
    match store w with
    | Some rows =>
        (Return
           (filter (fun c =>
                instant start_of_day <= utc_instant (timestamp_checkin c)
                /\ utc_instant (timestamp_checkin c) < instant end_of_day) rows), w)
    | None => (Raise OperationalError, w)
    end.

(** [session.query(Checkin).filter(ts >= start, ts < end).all()] *)
Definition session_query (start_of_day end_of_day : datetime) : M (list Checkin) :=
  emit (SessionQuery start_of_day end_of_day);;
  rows_between start_of_day end_of_day.

(** [churn_predictor_consumer.retrain_and_save_model()] *)
Definition retrain : M unit :=
  fun w =>
    let '(p, fs) := retrain_and_save_model (churn_predictor_consumer w) (files w) in
    (Return tt,
     {| trace := trace w ++ [Retrain]; clock := clock w; store := store w;
        churn_predictor_consumer := p; files := fs |}).

Definition now_date : M Z := fun w => (Return (clock w / usec_per_day), w).

(** The body of the [try], down to the line before [ch.basic_ack]. *)
Definition handle (body : string) : M unit :=
  message_data ←
    match json_loads body with
    | Some v => ret v
    | None => raise JSONDecodeError
    end;
  message_type ← dict_get message_data "type" JNull;
  print (Recebida message_type message_data);;
  if eq_str message_type "new_checkin_event" then
      checkin_id ← dict_get message_data "checkin_id" JNull;
      id_aluno ← dict_get message_data "id_aluno" JNull;
      print (ProcessandoIndividual checkin_id id_aluno);;
      sleep 1000;;
      print (ProcessadoIndividual checkin_id)
  else if eq_str message_type "bulk_checkin_event" then
      checkin_ids ← dict_get message_data "checkin_ids" (JArr []);
      print (ProcessandoMassa checkin_ids);;
      items ← iter checkin_ids;
      for_each items (fun single_id =>
        print (SubProcess single_id);; sleep 500);;
      print (MassaProcessados (Z.of_nat (length items)))
  else if eq_str message_type "generate_daily_report_event" then
      today ← now_date;
      report_date_str ←
        dict_get message_data "report_date" (JStr (date_isoformat today));
      report_date ←
        match report_date_str with
        | JStr s =>
            match fromisoformat s with
            | Some d => ret (wall d / usec_per_day)
            | None => raise ValueError
            end
        | _ => raise TypeError
        end;
      print (GerandoRelatorio report_date);;
      let start_of_day :=
        {| wall := report_date * usec_per_day; tzinfo := Some utc |} in
      end_of_day ←
        match add_timedelta start_of_day (timedelta_days 1) with
        | Some d => ret d
        | None => raise OverflowError
        end;
      daily_checkins ← session_query start_of_day end_of_day;
      let total_daily_checkins := Z.of_nat (length daily_checkins) in
      let unique_alunos_ids : gset Z := list_to_set (id_aluno <$> daily_checkins) in
      let total_unique_alunos := Z.of_nat (size unique_alunos_ids) in
      print (RelatorioTitulo report_date);;
      print (RelatorioTotal total_daily_checkins);;
      print (RelatorioUnicos total_unique_alunos);;
      sleep 3000;;
      print (RelatorioGerado report_date)
  else if eq_str message_type "retrain_model_event" then
      print AcionandoRetreinamento;;
      retrain;;
      print RetreinamentoFinalizado
  else
      print (TipoDesconhecido message_type message_data).

(** [process_checkin_message(ch, method, properties, body)], where
    [delivery_tag] is [method.delivery_tag]. *)
Definition process_checkin_message (delivery_tag : Z) (body : string) : M unit :=
  emit SessionOpen;;
  try_finally
    (try_except
       (handle body;;
        emit (BasicAck delivery_tag);;
        print (Confirmada delivery_tag))
       (fun e =>
          match e with
          | JSONDecodeError =>
              print (ErroJson body);;
              emit SessionRollback;;
              emit (BasicNack delivery_tag)
          | _ =>
              print (ErroProcessar e body);;
              emit SessionRollback;;
              emit (BasicNack delivery_tag)
          end))
    (emit SessionClose).

(** Anything the callback does, the two answers to the broker apart. *)
Definition quiet (e : event) : Prop :=
  match e with
  | BasicAck _ | BasicNack _ => False
  | _ => True
  end.

(** [m] only adds events to the trace, all of them satisfying [P]. *)
Definition appends {A} (P : event -> Prop) (m : M A) : Prop :=
  forall w, exists evs, trace (m w).2 = trace w ++ evs /\ Forall P evs.

End Callback.

End Consumer.

(** ** Concrete students, stores and learners, for evaluation *)

Module Exemplos.
Import PyFloat Datetime.
Export Consumer.

(** A learner that always predicts the churn probability [p]. *)
Definition constante (p : float) : Sklearn :=
  {| Estimator := unit;
     LogisticRegression_fit := fun _ _ _ _ => tt;
     predict_proba := fun _ _ => ((1 - p)%float, p) |}.

(** The predictor as [main.py] creates it, on an empty disk. *)
Definition predictor (p : float) : @ChurnPredictor (constante p) :=
  (@init (constante p) "churn_model.joblib" ∅).1.
Definition disco (p : float) : @FS (constante p) :=
  (@init (constante p) "churn_model.joblib" ∅).2.

(** A predictor created on a disk whose model file is a pickle of [None]:
    it holds no model, and the file stays. *)
Definition disco_falsy (p : float) : @FS (constante p) :=
  {[ "churn_model.joblib" := @Falsy (constante p) ]}.
Definition predictor_sem_modelo (p : float) : @ChurnPredictor (constante p) :=
  (@init (constante p) "churn_model.joblib" (disco_falsy p)).1.

Definition agora : Z := 20000 * usec_per_day + 5.

Definition ana : Aluno :=
  {| aluno_id := 1; nome := "Ana"; id_plano := 1;
     plano := Some {| plano_id := 1; nome_plano := "Mensal" |} |}.
Definition bia : Aluno :=
  {| aluno_id := 2; nome := "Bia"; id_plano := 3;
     plano := Some {| plano_id := 3; nome_plano := "Anual" |} |}.

(** A naive check-in of student [a], [d] days and one hour before [agora]. *)
Definition visita (i a d : Z) (dur : option Z) : Checkin :=
  {| checkin_id := i; id_aluno := a;
     timestamp_checkin :=
       {| wall := agora - d * usec_per_day - 3600000000; tzinfo := None |};
     duracao_minutos := dur |}.

(** Ana came 1, 5 and 40 days ago; Bia never did. *)
Definition academia : Database :=
  {| alunos := [ana; bia];
     checkins := [visita 1 1 5 (Some 55); visita 2 1 1 (Some 60); visita 3 1 40 None] |}.

(** One visit of Ana, [d] days and one hour ago. *)
Definition uma_visita (d : Z) : Database :=
  {| alunos := [ana]; checkins := [visita 1 1 d (Some 45)] |}.

(** Twenty-one visits of Ana in the last three weeks, 629 minutes in all. *)
Definition assidua : Database :=
  {| alunos := [ana];
     checkins :=
       visita 1 1 1 (Some 29)
       :: ((fun i => visita (i + 1) 1 i (Some 30)) <$> (Z.of_nat <$> seq 1 20)) |}.

(** A JSON string token: the text between two quotation marks. *)
Definition aspas : string := String (Ascii.ascii_of_nat 34) EmptyString.
Definition token (s : string) : string := aspas +:+ s +:+ aspas.

(** Five payloads as they may come off the queue. *)
Definition corpo_foo : string :=
  "{" +:+ token "type" +:+ ": " +:+ token "foo" +:+ "}".
Definition corpo_bulk : string :=
  "{" +:+ token "type" +:+ ": " +:+ token "bulk_checkin_event" +:+ ", "
      +:+ token "checkin_ids" +:+ ": [1, 2]}".
Definition corpo_bulk_3 : string :=
  "{" +:+ token "type" +:+ ": " +:+ token "bulk_checkin_event" +:+ ", "
      +:+ token "checkin_ids" +:+ ": 3}".
Definition corpo_retrain : string :=
  "{" +:+ token "type" +:+ ": " +:+ token "retrain_model_event" +:+ "}".
Definition corpo_lista : string := "[]".

(** A parser that knows these five payloads and rejects the rest. *)
Definition loads (body : string) : option json :=
  if String.eqb body corpo_foo
  then Some (JObj {[ "type" := JStr "foo" ]})
  else if String.eqb body corpo_bulk
  then Some (JObj {[ "type" := JStr "bulk_checkin_event";
                     "checkin_ids" := JArr [JInt 1; JInt 2] ]})
  else if String.eqb body corpo_bulk_3
  then Some (JObj {[ "type" := JStr "bulk_checkin_event"; "checkin_ids" := JInt 3 ]})
  else if String.eqb body corpo_retrain
  then Some (JObj {[ "type" := JStr "retrain_model_event" ]})
  else if String.eqb body corpo_lista
  then Some (JArr [])
  else None.

(** The consumer after start-up, nothing done yet, the store out of reach. *)
Definition mundo : @world (constante 0.8) :=
  {| trace := []; clock := agora; store := None;
     churn_predictor_consumer := predictor 0.8; files := disco 0.8 |}.

(** The callback on [mundo], for delivery tag 7: what it did. *)
Definition entrega (body : string) : list event :=
  trace (@process_checkin_message (constante 0.8) loads
           (fun _ => None) (fun _ => "1970-01-01") 7 body mundo).2.

End Exemplos.

(** ** [api/main.py]: the attendance history *)

Module Frequencia.
Import Datetime.
Export Api.

Record FrequenciaHistoricoItem : Type := mk_FrequenciaHistoricoItem {
  id_checkin : Z;
  timestamp : string;
  item_duracao_minutos : option Z
}.

Record FrequenciaResponse : Type := mk_FrequenciaResponse {
  frequencia_aluno_id : Z;
  frequencia_nome_aluno : string;
  total_checkins : Z;
  historico : list FrequenciaHistoricoItem
}.

Inductive frequencia_result : Type :=
  | FrequenciaOk (body : FrequenciaResponse)
  | FrequenciaAbort404.

(** [ORDER BY timestamp_checkin ASC]: [a] may stand before [b]. *)
Definition asc (a b : Checkin) : Prop :=
  utc_instant (timestamp_checkin a) <= utc_instant (timestamp_checkin b).

#[global] Instance asc_dec : RelDecision asc.
Proof. intros a b. unfold asc. apply _. Defined.

(** [db.session.query(Checkin).filter_by(id_aluno=aluno.id)
      .order_by(Checkin.timestamp_checkin.asc()).all()] *)
Definition checkins_do_aluno_asc (db : Database) (aluno : Aluno) : list Checkin :=
  merge_sort asc (filter (fun c => id_aluno c = aluno_id aluno) (checkins db)).

Section Get.
(** [datetime.isoformat] *)
Context (isoformat : datetime -> string).

Definition item (checkin : Checkin) : FrequenciaHistoricoItem :=
  {| id_checkin := checkin_id checkin;
     timestamp := isoformat (timestamp_checkin checkin);
     item_duracao_minutos := duracao_minutos checkin |}.

(** [AlunoFrequencia.get(id)] *)
Definition get (db : Database) (id : Z) : frequencia_result :=
  match get_or_404 db id with
  | None => FrequenciaAbort404
  | Some aluno =>
      let historico_frequencia := item <$> checkins_do_aluno_asc db aluno in
      FrequenciaOk
        {| frequencia_aluno_id := aluno_id aluno;
           frequencia_nome_aluno := nome aluno;
           total_checkins := Z.of_nat (length historico_frequencia);
           historico := historico_frequencia |}
  end.

End Get.

End Frequencia.

(** ** [api/utils/rabbitmq.py] and the route that asks for a retrain *)

Module Rabbitmq.
Export Consumer.

(** What pika may raise: the connection error the code names, or another
    [Exception]. *)
Inductive pika_exn : Type :=
  | AMQPConnectionError
  | OutroErro.

(** The calls [publish_message] makes on pika, in order. *)
Inductive etapa : Type :=
  | BlockingConnection
  | Channel
  | QueueDeclare
  | BasicPublish
  | ConnectionClose.

Record mensagem : Type := mk_mensagem {
  body : string;
  delivery_mode : Z
}.

Record fila : Type := mk_fila {
  durable : bool;
  mensagens : list mensagem
}.

(** The three [print]s of [publish_message]. *)
Inductive linha_publicacao : Type :=
  | Enviada (queue_name : string) (message : json)
  | ErroConexao
  | ErroPublicacao.

(** The broker's queues and what the publisher printed. *)
Record broker : Type := mk_broker {
  filas : gmap string fila;
  stdout : list linha_publicacao
}.

(** Code of the publisher: it acts on the broker and may raise. *)
Definition P (A : Type) : Type := broker -> (pika_exn + A) * broker.

#[global] Instance P_ret : MRet P := fun A a b => (inr a, b).
#[global] Instance P_bind : MBind P := fun A B k m b =>
  match m b with
  | (inr a, b') => k a b'
  | (inl x, b') => (inl x, b')
  end.

Section Publish.
(** [json.dumps], and the call of pika that fails on this attempt, if any. *)
Context (json_dumps : json -> string).
Context (falha : etapa -> option pika_exn).

(** One call on pika: it raises when the attempt says so, and acts on the
    broker otherwise. *)
Definition chamar (e : etapa) (efeito : broker -> broker) : P unit :=
  fun b =>
    match falha e with
    | Some x => (inl x, b)
    | None => (inr tt, efeito b)
    end.

(** [channel.queue_declare(queue=queue_name, durable=True)]: the queue is
    created durable when absent; a queue declared otherwise is refused. *)
Definition queue_declare (queue_name : string) : P unit :=
  fun b =>
    match filas b !! queue_name with
    | None =>
        chamar QueueDeclare
          (fun b =>
             {| filas := <[queue_name := {| durable := true; mensagens := [] |}]> (filas b);
                stdout := stdout b |}) b
    | Some q =>
        if durable q then chamar QueueDeclare (fun b => b) b
        else (inl OutroErro, b)
    end.

(** [channel.basic_publish(exchange='', routing_key=queue_name, body=...,
    properties=BasicProperties(delivery_mode=2))]: the default exchange hands
    the message to the queue of that name, and drops it when there is none. *)
Definition basic_publish (queue_name : string) (payload : string) : P unit :=
  chamar BasicPublish
    (fun b =>
       match filas b !! queue_name with
       | Some q =>
           {| filas :=
                <[queue_name :=
                    {| durable := durable q;
                       mensagens :=
                         mensagens q ++ [{| body := payload; delivery_mode := 2 |}] |}]>
                  (filas b);
              stdout := stdout b |}
       | None => b
       end).

Definition imprimir (l : linha_publicacao) : P unit :=
  fun b => (inr tt, {| filas := filas b; stdout := stdout b ++ [l] |}).

(** [publish_message(queue_name, message)] *)
Definition publish_message (queue_name : string) (message : json) (b : broker)
    : bool * broker :=
  let tentativa : P unit :=
    chamar BlockingConnection (fun b => b);;
    chamar Channel (fun b => b);;
    queue_declare queue_name;;
    basic_publish queue_name (json_dumps message);;
    imprimir (Enviada queue_name message);;
    chamar ConnectionClose (fun b => b) in
  match tentativa b with
  | (inr _, b) => (true, b)
  | (inl AMQPConnectionError, b) => (false, (imprimir ErroConexao b).2)
  | (inl OutroErro, b) => (false, (imprimir ErroPublicacao b).2)
  end.

(** The message reaches [basic_publish], and that call goes through. *)
Definition enviada (queue_name : string) (b : broker) : Prop :=
  falha BlockingConnection = None
  /\ falha Channel = None
  /\ falha QueueDeclare = None
  /\ falha BasicPublish = None
  /\ (forall q, filas b !! queue_name = Some q -> durable q = true).

(** The queue once the message is in it. *)
Definition fila_com (queue_name : string) (message : json) (b : broker) : fila :=
  {| durable := true;
     mensagens :=
       default [] (mensagens <$> filas b !! queue_name)
       ++ [{| body := json_dumps message; delivery_mode := 2 |}] |}.

(** [ModelRetrain.post()]: the message and the status it answers with. *)
Definition model_retrain_post (b : broker) : (string * Z) * broker :=
  let message_payload : json := JObj {[ "type" := JStr "retrain_model_event" ]} in
  let '(_, b) := publish_message "checkin_queue" message_payload b in
  (("Solicitação de retreinamento do modelo de churn enviada para a fila.", 200), b).

End Publish.

End Rabbitmq.

(** ** Reading a trace of the callback *)

Module Protocolo.
Export Rabbitmq.

(** What a handler may do: print, sleep, query the store, retrain. *)
Definition de_handler (e : event) : Prop :=
  match e with
  | Print _ | Sleep _ | SessionQuery _ _ | Retrain => True
  | _ => False
  end.

(** An answer to the broker. *)
Definition resposta (e : event) : Prop :=
  match e with
  | BasicAck _ | BasicNack _ => True
  | _ => False
  end.

#[global] Instance resposta_dec e : Decision (resposta e).
Proof. destruct e; cbn; apply _. Defined.

(** What the callback does once the handler is through, by how it ended. *)
Definition desfecho (delivery_tag : Z) (body : string) (r : outcome unit)
    : list event :=
  match r with
  | Return _ =>
      [BasicAck delivery_tag; Print (Confirmada delivery_tag); SessionClose]
  | Raise JSONDecodeError =>
      [Print (ErroJson body); SessionRollback; BasicNack delivery_tag; SessionClose]
  | Raise e =>
      [Print (ErroProcessar e body); SessionRollback; BasicNack delivery_tag;
       SessionClose]
  end.


End Protocolo.

(** ** More payloads and a store with a busy day, for evaluation *)

Module MaisExemplos.
Import Datetime.
Export Protocolo.
Export Exemplos.

Definition objeto_novo : gmap string json :=
  {[ "type" := JStr "new_checkin_event"; "checkin_id" := JInt 7;
     "id_aluno" := JInt 1 ]}.
Definition objeto_bulk : gmap string json :=
  {[ "type" := JStr "bulk_checkin_event"; "checkin_ids" := JArr [JInt 1; JInt 2] ]}.
Definition objeto_bulk_3 : gmap string json :=
  {[ "type" := JStr "bulk_checkin_event"; "checkin_ids" := JInt 3 ]}.
Definition objeto_retrain : gmap string json :=
  {[ "type" := JStr "retrain_model_event" ]}.
Definition objeto_relatorio : gmap string json :=
  {[ "type" := JStr "generate_daily_report_event";
     "report_date" := JStr "2024-10-02" ]}.
Definition objeto_relatorio_ruim : gmap string json :=
  {[ "type" := JStr "generate_daily_report_event"; "report_date" := JStr "ontem" ]}.
Definition objeto_relatorio_fim : gmap string json :=
  {[ "type" := JStr "generate_daily_report_event";
     "report_date" := JStr "9999-12-31" ]}.

(** The code point U+D800 alone, as the JSON escape [\ud800] gives it. *)
Definition lone_surrogate : string :=
  String (Ascii.ascii_of_nat 237)
    (String (Ascii.ascii_of_nat 160) (String (Ascii.ascii_of_nat 128) EmptyString)).
Definition objeto_surrogate : gmap string json :=
  {[ "type" := JStr lone_surrogate ]}.
Definition objeto_novo_surrogate : gmap string json :=
  {[ "type" := JStr "new_checkin_event"; "checkin_id" := JStr lone_surrogate;
     "id_aluno" := JInt 1 ]}.
Definition objeto_bulk_surrogate : gmap string json :=
  {[ "type" := JStr "bulk_checkin_event";
     "checkin_ids" := JArr [JInt 1; JStr lone_surrogate; JInt 3] ]}.

Definition corpo_surrogate : string :=
  "{" +:+ token "type" +:+ ": " +:+ token "\ud800" +:+ "}".
Definition corpo_novo_surrogate : string :=
  "{" +:+ token "type" +:+ ": " +:+ token "new_checkin_event" +:+ ", "
      +:+ token "checkin_id" +:+ ": " +:+ token "\ud800" +:+ ", "
      +:+ token "id_aluno" +:+ ": 1}".
Definition corpo_bulk_surrogate : string :=
  "{" +:+ token "type" +:+ ": " +:+ token "bulk_checkin_event" +:+ ", "
      +:+ token "checkin_ids" +:+ ": [1, " +:+ token "\ud800" +:+ ", 3]}".
Definition corpo_novo : string :=
  "{" +:+ token "type" +:+ ": " +:+ token "new_checkin_event" +:+ ", "
      +:+ token "checkin_id" +:+ ": 7, " +:+ token "id_aluno" +:+ ": 1}".
Definition corpo_relatorio : string :=
  "{" +:+ token "type" +:+ ": " +:+ token "generate_daily_report_event" +:+ ", "
      +:+ token "report_date" +:+ ": " +:+ token "2024-10-02" +:+ "}".
Definition corpo_relatorio_ruim : string :=
  "{" +:+ token "type" +:+ ": " +:+ token "generate_daily_report_event" +:+ ", "
      +:+ token "report_date" +:+ ": " +:+ token "ontem" +:+ "}".

Definition corpo_relatorio_fim : string :=
  "{" +:+ token "type" +:+ ": " +:+ token "generate_daily_report_event" +:+ ", "
      +:+ token "report_date" +:+ ": " +:+ token "9999-12-31" +:+ "}".

(** A parser for the payloads above and those of [loads]. *)
Definition loads2 (body : string) : option json :=
  if String.eqb body corpo_novo then Some (JObj objeto_novo)
  else if String.eqb body corpo_bulk then Some (JObj objeto_bulk)
  else if String.eqb body corpo_bulk_3 then Some (JObj objeto_bulk_3)
  else if String.eqb body corpo_retrain then Some (JObj objeto_retrain)
  else if String.eqb body corpo_relatorio then Some (JObj objeto_relatorio)
  else if String.eqb body corpo_relatorio_ruim then Some (JObj objeto_relatorio_ruim)
  else if String.eqb body corpo_relatorio_fim then Some (JObj objeto_relatorio_fim)
  else if String.eqb body corpo_surrogate then Some (JObj objeto_surrogate)
  else if String.eqb body corpo_novo_surrogate then Some (JObj objeto_novo_surrogate)
  else if String.eqb body corpo_bulk_surrogate then Some (JObj objeto_bulk_surrogate)
  else loads body.

(** The three dates this file needs: 2 October 2024 is day 19998 since the
    epoch, 4 October 2024 day 20000, the day of [agora], and 31 December
    9999 day 2932896, the last one. *)
Definition de_iso (s : string) : option datetime :=
  if String.eqb s "2024-10-02"
  then Some {| wall := 19998 * usec_per_day; tzinfo := None |}
  else if String.eqb s "2024-10-04"
  then Some {| wall := 20000 * usec_per_day; tzinfo := None |}
  else if String.eqb s "9999-12-31"
  then Some {| wall := 2932896 * usec_per_day; tzinfo := None |}
  else None.
Definition para_iso (dia : Z) : string :=
  if dia =? 19998 then "2024-10-02"
  else if dia =? 20000 then "2024-10-04"
  else if dia =? 2932896 then "9999-12-31"
  else "?".

(** On 2 October Ana came twice and Bia once; Bia also came on 28 September. *)
Definition dia_cheio : list Checkin :=
  [visita 1 1 1 (Some 60); visita 2 1 1 None; visita 3 2 1 (Some 30);
   visita 4 2 5 None].

(** The consumer after start-up, the store in reach. *)
Definition mundo2 : @world (constante 0.8) :=
  {| trace := []; clock := agora; store := Some dia_cheio;
     churn_predictor_consumer := predictor 0.8; files := disco 0.8 |}.

(** The callback on [mundo2], for delivery tag 7: the world it leaves. *)
Definition entrega2 (body : string) : @world (constante 0.8) :=
  (@process_checkin_message (constante 0.8) loads2 de_iso para_iso 7 body mundo2).2.

(** A serializer that knows the retrain request. *)
Definition dumps (v : json) : string :=
  match v with
  | JObj o =>
      if eq_str (default JNull (o !! "type")) "retrain_model_event"
      then corpo_retrain else "?"
  | _ => "?"
  end.

(** An attempt on which pika never fails, and a broker without queues. *)
Definition sem_falha (e : etapa) : option pika_exn := None.
Definition broker_vazio : broker := {| filas := ∅; stdout := [] |}.

End MaisExemplos.

(** * Properties *)

Import PyFloat Datetime Exemplos.

(** ** Order of floats *)

Section FloatOrder.

Lemma SF_lt_le_absurd (x a b : spec_float) :
  SFltb x a = true -> SFleb a b = true -> SFleb b x = false.
Proof.
  unfold SFltb, SFleb.
  destruct x as [sx|sx| |sx mx ex], a as [sa|sa| |sa ma ea], b as [sb|sb| |sb mb eb];
    cbn [SFcompare]; try discriminate; try reflexivity;
    repeat match goal with s : bool |- _ => destruct s end;
    try discriminate; try reflexivity;
    repeat match goal with
      | |- context [Z.compare ?u ?v] => destruct (Z.compare_spec u v)
      | |- context [PosDef.Pos.compare_cont Eq ?u ?v] =>
          let H := fresh in
          pose proof (Pos.compare_spec u v) as H; unfold Pos.compare in H; destruct H
      end;
    cbn; try discriminate; try reflexivity; intros; try lia.
Qed.

(** Below [a], hence not at or above any [b] that [a] does not exceed. *)
Lemma ltb_leb_false (p a b : float) :
  (p <? a)%float = true -> (a <=? b)%float = true -> (b <=? p)%float = false.
Proof. rewrite ltb_spec, !leb_spec. apply SF_lt_le_absurd. Qed.

End FloatOrder.

(** ** The risk query *)

Section RiskQuery.
Context `{Sklearn}.

Lemma get_found db now cp fs id aluno :
  get_or_404 db id = Some aluno ->
  get db now cp fs id =
    (Ok200 (avaliar aluno now (checkins_do_aluno db aluno)
              (previsao db now cp fs aluno).1),
     (previsao db now cp fs aluno).2).
Proof.
  intros Hal. unfold get, previsao. rewrite Hal.
  destruct (predict_churn_probability _ _ _) as [p st]. reflexivity.
Qed.

Lemma faixa_cases (p : float) :
  faixa p = ("Muito Alto", motivo_muito_alta p)
  \/ faixa p = ("Alto", motivo_alta p)
  \/ faixa p = ("Médio", motivo_media p)
  \/ faixa p = ("Baixo", motivo_baixa p).
Proof. unfold faixa. repeat case_match; auto. Qed.

Lemma avaliar_risco_nonempty aluno now c hist prob :
  risco_churn_classificacao (avaliar aluno now (c :: hist) prob)
  = (classificar prob (dias_desde_ultimo_checkin now (c :: hist))
       (duracao_media_visitas_minutos (c :: hist))
       (frequencia_semanal now (c :: hist))
       (Z.of_nat (length (c :: hist)))).1.
Proof. unfold avaliar. destruct (classificar _ _ _ _ _). reflexivity. Qed.

Lemma avaliar_motivos_nonempty aluno now c hist prob :
  motivos (avaliar aluno now (c :: hist) prob)
  = list_set (classificar prob (dias_desde_ultimo_checkin now (c :: hist))
       (duracao_media_visitas_minutos (c :: hist))
       (frequencia_semanal now (c :: hist))
       (Z.of_nat (length (c :: hist)))).2.
Proof. unfold avaliar. destruct (classificar _ _ _ _ _). reflexivity. Qed.

Lemma classificar_risco p dias duracao frequencia total :
  (classificar (Some p) dias duracao frequencia total).1 = (faixa p).1.
Proof. unfold classificar. destruct (faixa p). reflexivity. Qed.

(** Marshalling an assessment succeeds exactly for a history that is not
    empty and a probability at hand, and then changes nothing. *)
Lemma marshal_avaliar aluno now hist churn_prob :
  marshal (avaliar aluno now hist churn_prob)
  = match hist, churn_prob with
    | _ :: _, Some _ => Some (avaliar aluno now hist churn_prob)
    | _, _ => None
    end.
Proof.
  unfold avaliar. destruct (classificar _ _ _ _ _) as [risco ms].
  destruct hist, churn_prob; reflexivity.
Qed.

(** C1. The code departs from the claim.  For a student without
    check-ins the handler does build the assessment the claim describes,
    tier "Indeterminado" with the one reason "Sem check-ins registrados para
    análise de churn.", whatever the predictor answered; but it writes
    "N/A" for the days since the last check-in, a field the response model
    declares an integer, so that marshalling fails and the route answers
    500: the assessment is never returned. *)
Theorem C1_empty_history_not_served db now cp fs id aluno :
  get_or_404 db id = Some aluno ->
  checkins_do_aluno db aluno = [] ->
  (forall churn_prob,
      risco_churn_classificacao (avaliar aluno now [] churn_prob) = "Indeterminado"
      /\ motivos (avaliar aluno now [] churn_prob) = [motivo_sem_checkins]
      /\ metricas_dias_desde_ultimo_checkin
           (metricas_calculadas (avaliar aluno now [] churn_prob)) = NA
      /\ marshal (avaliar aluno now [] churn_prob) = None)
  /\ (exists r,
        (get db now cp fs id).1 = Ok200 r
        /\ risco_churn_classificacao r = "Indeterminado"
        /\ motivos r = [motivo_sem_checkins])
  /\ (get_aluno_risco_churn db now cp fs id).1 = InternalServerError500.
Proof.
  intros Hal Hvazio.
  assert (Hav : forall churn_prob,
      risco_churn_classificacao (avaliar aluno now [] churn_prob) = "Indeterminado"
      /\ motivos (avaliar aluno now [] churn_prob) = [motivo_sem_checkins]
      /\ metricas_dias_desde_ultimo_checkin
           (metricas_calculadas (avaliar aluno now [] churn_prob)) = NA
      /\ marshal (avaliar aluno now [] churn_prob) = None).
  { intros churn_prob. rewrite marshal_avaliar. unfold avaliar.
    destruct (classificar _ _ _ _ _) as [risco ms]. cbn.
    split; [reflexivity|]. split; [vm_compute; reflexivity|]. auto. }
  split; [exact Hav|].
  unfold get_aluno_risco_churn.
  rewrite (get_found _ _ _ _ _ _ Hal), Hvazio. cbn [fst marshal_with].
  split.
  - eexists; split; [reflexivity|].
    destruct (Hav (previsao db now cp fs aluno).1) as (Hr & Hm & _). auto.
  - destruct (Hav (previsao db now cp fs aluno).1) as (_ & _ & _ & ->).
    reflexivity.
Qed.

(** C2. With a probability [p] at hand and a history that is not empty,
    the tier is "Muito Alto" from 0.7 up, "Alto" from 0.5 up to 0.7,
    "Médio" from 0.3 up to 0.5 and "Baixo" below 0.3, each bin closed
    below and open above; so 0.7, 0.5 and 0.3 fall in the upper bin and
    0.6999, 0.4999 and 0.2999 in the lower one. *)
Theorem C2_probability_tiers db now cp fs id aluno p :
  get_or_404 db id = Some aluno ->
  checkins_do_aluno db aluno <> [] ->
  (previsao db now cp fs aluno).1 = Some p ->
  exists r,
    (get db now cp fs id).1 = Ok200 r
    /\ ((0.7 <=? p)%float = true -> risco_churn_classificacao r = "Muito Alto")
    /\ ((0.5 <=? p)%float = true -> (p <? 0.7)%float = true ->
        risco_churn_classificacao r = "Alto")
    /\ ((0.3 <=? p)%float = true -> (p <? 0.5)%float = true ->
        risco_churn_classificacao r = "Médio")
    /\ ((p <? 0.3)%float = true -> risco_churn_classificacao r = "Baixo")
    /\ (p = 0.7%float -> risco_churn_classificacao r = "Muito Alto")
    /\ (p = 0.6999%float -> risco_churn_classificacao r = "Alto")
    /\ (p = 0.5%float -> risco_churn_classificacao r = "Alto")
    /\ (p = 0.4999%float -> risco_churn_classificacao r = "Médio")
    /\ (p = 0.3%float -> risco_churn_classificacao r = "Médio")
    /\ (p = 0.2999%float -> risco_churn_classificacao r = "Baixo").
Proof.
  intros Hal Hne Hp.
  rewrite (get_found _ _ _ _ _ _ Hal), Hp. cbn [fst].
  destruct (checkins_do_aluno db aluno) as [|c hist]; [congruence|].
  eexists; split; [reflexivity|].
  rewrite avaliar_risco_nonempty, classificar_risco.
  assert (H7 : (p <? 0.7)%float = true -> (0.7 <=? p)%float = false).
  { intros Hlt. apply (ltb_leb_false p 0.7 0.7 Hlt). reflexivity. }
  assert (H5 : (p <? 0.5)%float = true ->
               (0.5 <=? p)%float = false /\ (0.7 <=? p)%float = false).
  { intros Hlt. split.
    - apply (ltb_leb_false p 0.5 0.5 Hlt). reflexivity.
    - apply (ltb_leb_false p 0.5 0.7 Hlt). reflexivity. }
  assert (H3 : (p <? 0.3)%float = true ->
               (0.3 <=? p)%float = false /\ (0.5 <=? p)%float = false
               /\ (0.7 <=? p)%float = false).
  { intros Hlt. repeat split.
    - apply (ltb_leb_false p 0.3 0.3 Hlt). reflexivity.
    - apply (ltb_leb_false p 0.3 0.5 Hlt). reflexivity.
    - apply (ltb_leb_false p 0.3 0.7 Hlt). reflexivity. }
  unfold faixa. repeat split.
  - intros ->. reflexivity.
  - intros H50 Hlt. rewrite (H7 Hlt), H50. reflexivity.
  - intros H30 Hlt. destruct (H5 Hlt) as [-> ->]. rewrite H30. reflexivity.
  - intros Hlt. destruct (H3 Hlt) as (-> & -> & ->). reflexivity.
  - intros ->. reflexivity.
  - intros ->. reflexivity.
  - intros ->. reflexivity.
  - intros ->. reflexivity.
  - intros ->. reflexivity.
  - intros ->. reflexivity.
Qed.

(** *** The history as the query returns it *)

Lemma desc_trans : Transitive desc.
Proof. unfold desc. intros a b c. lia. Qed.

Lemma desc_total : Total desc.
Proof. unfold desc. intros a b. lia. Qed.

Lemma hist_sorted db aluno : StronglySorted desc (checkins_do_aluno db aluno).
Proof.
  apply (@StronglySorted_merge_sort _ desc _ desc_trans desc_total).
Qed.

Lemma elem_of_hist db aluno c :
  c ∈ checkins_do_aluno db aluno
  <-> c ∈ checkins db /\ id_aluno c = aluno_id aluno.
Proof.
  unfold checkins_do_aluno. rewrite merge_sort_Permutation, list_elem_of_filter.
  tauto.
Qed.

Lemma sorted_head_latest c l :
  StronglySorted desc (c :: l) ->
  forall c', c' ∈ c :: l ->
    utc_instant (timestamp_checkin c') <= utc_instant (timestamp_checkin c).
Proof.
  intros Hs c' Hin. apply StronglySorted_inv in Hs as [_ Hall].
  apply elem_of_cons in Hin as [->|Hin]; [lia|].
  rewrite Forall_forall in Hall. exact (Hall _ Hin).
Qed.

Lemma sorted_last_earliest l c :
  StronglySorted desc l -> last l = Some c ->
  forall c', c' ∈ l ->
    utc_instant (timestamp_checkin c) <= utc_instant (timestamp_checkin c').
Proof.
  induction 1 as [|x l Hs IH Hall]; intros Hlast c' Hin.
  - discriminate.
  - destruct l as [|y l'].
    + cbn in Hlast. injection Hlast as ->.
      apply list_elem_of_singleton in Hin as ->. lia.
    + assert (Hl : last (y :: l') = Some c) by exact Hlast.
      apply elem_of_cons in Hin as [->|Hin]; [|exact (IH Hl _ Hin)].
      rewrite Forall_forall in Hall.
      apply (Hall c). apply last_Some_elem_of. exact Hl.
Qed.

Lemma utc_instant_assume_utc ts : instant (assume_utc ts) = utc_instant ts.
Proof. reflexivity. Qed.

(** C6 (as amended). The metric [dias_desde_ultimo_checkin] is 999 for an
    empty history; for any other history it is the number of whole days,
    rounded down, from the latest check-in (a naive timestamp read as UTC)
    to now, which is never negative when that check-in is not after now. *)
Theorem C6_days_since_last_checkin db aluno now :
  let hist := checkins_do_aluno db aluno in
  (hist = [] -> dias_desde_ultimo_checkin now hist = 999)
  /\ (hist <> [] ->
      exists c,
        c ∈ hist
        /\ (forall c', c' ∈ hist ->
              utc_instant (timestamp_checkin c') <= utc_instant (timestamp_checkin c))
        /\ dias_desde_ultimo_checkin now hist
           = (now - utc_instant (timestamp_checkin c)) `div` usec_per_day
        /\ dias_desde_ultimo_checkin now hist * usec_per_day
           <= now - utc_instant (timestamp_checkin c)
           < (dias_desde_ultimo_checkin now hist + 1) * usec_per_day
        /\ (utc_instant (timestamp_checkin c) <= now ->
            0 <= dias_desde_ultimo_checkin now hist)).
Proof.
  intros hist. split.
  - intros ->. reflexivity.
  - intros Hne. pose proof (hist_sorted db aluno) as Hs. fold hist in Hs.
    destruct hist as [|c l]; [congruence|].
    exists c. split; [apply elem_of_cons; auto|].
    split; [exact (sorted_head_latest c l Hs)|].
    assert (Hd : dias_desde_ultimo_checkin now (c :: l)
                 = (now - utc_instant (timestamp_checkin c)) `div` usec_per_day).
    { unfold dias_desde_ultimo_checkin, days, sub.
      rewrite utc_instant_assume_utc. cbn. unfold utc. f_equal. lia. }
    split; [exact Hd|]. rewrite Hd. unfold usec_per_day.
    split; [|intros; apply Z.div_pos; lia].
    pose proof (Z.div_mod (now - utc_instant (timestamp_checkin c)) 86400000000).
    pose proof (Z.mod_pos_bound (now - utc_instant (timestamp_checkin c)) 86400000000).
    lia.
Qed.

Lemma nos_ultimos_30_dias_iff now c :
  naive_or_utc c ->
  nos_ultimos_30_dias now c
  <-> now - timedelta_days 30 <= utc_instant (timestamp_checkin c).
Proof.
  unfold nos_ultimos_30_dias, ge, utc_instant, instant, naive_or_utc, utc,
    sub_timedelta, timedelta_days, usec_per_day.
  rewrite Is_true_true, Z.leb_le.
  destruct (tzinfo (timestamp_checkin c)) as [off|] eqn:E; cbn;
    intros [Htz|Htz]; try discriminate; try injection Htz as ->;
    unfold now_utc, replace_tzinfo, utc in *; cbn; rewrite ?E; cbn; lia.
Qed.

Lemma recentes_filter now hist :
  Forall naive_or_utc hist ->
  checkins_ultimos_30_dias now hist
  = filter (fun c => now - timedelta_days 30 <= utc_instant (timestamp_checkin c)) hist.
Proof.
  unfold checkins_ultimos_30_dias. induction 1 as [|c l Hc Hl IH]; [reflexivity|].
  rewrite !filter_cons, IH.
  pose proof (nos_ultimos_30_dias_iff now c Hc).
  repeat case_decide; tauto.
Qed.

(** C3. For a history that is not empty: when some check-in is no older
    than 30 days, the weekly frequency is the number of such check-ins
    divided by 30/7; otherwise it is the number of check-ins divided by the
    age in days of the earliest one, times 7, when that age is positive, and
    0 when it is 0. *)
Theorem C3_weekly_frequency db aluno now :
  let hist := checkins_do_aluno db aluno in
  let recentes :=
    filter (fun c => now - timedelta_days 30 <= utc_instant (timestamp_checkin c)) hist in
  hist <> [] ->
  Forall naive_or_utc hist ->
  exists primeiro,
    primeiro ∈ hist
    /\ (forall c, c ∈ hist ->
          utc_instant (timestamp_checkin primeiro) <= utc_instant (timestamp_checkin c))
    /\ let idade := (now - utc_instant (timestamp_checkin primeiro)) `div` usec_per_day in
       (recentes <> [] ->
        frequencia_semanal now hist
        = (float_of_int (Z.of_nat (length recentes)) / (30 / 7))%float)
       /\ (recentes = [] -> 0 < idade ->
           frequencia_semanal now hist
           = (truediv_int (Z.of_nat (length hist)) idade * 7)%float)
       /\ (recentes = [] -> idade = 0 -> frequencia_semanal now hist = 0%float).
Proof.
  intros hist recentes Hne Hutc.
  pose proof (hist_sorted db aluno) as Hs. fold hist in Hs.
  destruct (last hist) as [primeiro|] eqn:Hlast;
    [|apply last_None in Hlast; congruence].
  exists primeiro. split; [apply last_Some_elem_of; exact Hlast|].
  split; [exact (sorted_last_earliest hist primeiro Hs Hlast)|].
  intros idade.
  assert (Hid : days (sub (now_utc now) (assume_utc (timestamp_checkin primeiro))) = idade).
  { unfold days, sub, idade. rewrite utc_instant_assume_utc. cbn. unfold utc.
    f_equal. lia. }
  unfold frequencia_semanal. rewrite Hlast, Hid.
  rewrite (recentes_filter now hist Hutc). fold recentes.
  repeat split.
  - intros Hrec. destruct recentes as [|r rs]; [congruence|].
    reflexivity.
  - intros -> Hpos. cbn [length].
    destruct (0 <? idade) eqn:E; [reflexivity|]. apply Z.ltb_ge in E. lia.
  - intros -> ->. reflexivity.
Qed.

(** *** Reasons *)

Lemma elem_of_list_set (x : string) (l : list string) : x ∈ list_set l <-> x ∈ l.
Proof. unfold list_set. rewrite elem_of_elements, elem_of_list_to_set. reflexivity. Qed.

Lemma NoDup_list_set (l : list string) : NoDup (list_set l).
Proof. unfold list_set. apply NoDup_elements. Qed.

Lemma faixa_not_contextual s : motivo_de_faixa s -> ~ motivo_contextual s.
Proof.
  intros [(p & [-> | [-> | [-> | ->]]]) | [-> | ->]] [(d & Hd) | [(x & Hx) | (x & Hx)]];
    discriminate.
Qed.

Lemma faixa_motivo_de_faixa p : motivo_de_faixa (faixa p).2.
Proof.
  left. exists p.
  destruct (faixa_cases p) as [-> | [-> | [-> | ->]]]; cbn; auto.
Qed.

Lemma faixa_baixo p : (faixa p).1 = "Baixo" -> faixa p = ("Baixo", motivo_baixa p).
Proof.
  destruct (faixa_cases p) as [-> | [-> | [-> | ->]]]; cbn; intros E;
    try discriminate; reflexivity.
Qed.

Lemma motivos_de_contexto_baixo dias duracao frequencia total :
  motivos_de_contexto "Baixo" dias duracao frequencia total = [].
Proof.
  unfold motivos_de_contexto. cbn [String.eqb Ascii.eqb Bool.eqb negb].
  rewrite !andb_false_r. reflexivity.
Qed.

(** C4. The returned reasons never repeat a string; and when the tier the
    probability falls in is "Baixo", none of the three reasons of context
    (days since the last check-in, short visits, low frequency) is among
    them, whatever the metrics are. *)
Theorem C4_low_tier_no_context_reasons db now cp fs id aluno :
  get_or_404 db id = Some aluno ->
  exists r,
    (get db now cp fs id).1 = Ok200 r
    /\ NoDup (motivos r)
    /\ (forall p,
          (previsao db now cp fs aluno).1 = Some p ->
          (faixa p).1 = "Baixo" ->
          forall (dias : Z) (x y : float),
            (motivo_ultimo_checkin dias ∉ motivos r)
            /\ (motivo_duracao x ∉ motivos r)
            /\ (motivo_frequencia y ∉ motivos r)).
Proof.
  intros Hal. rewrite (get_found _ _ _ _ _ _ Hal). cbn [fst].
  eexists; split; [reflexivity|].
  split.
  { unfold avaliar. destruct (classificar _ _ _ _ _) as [risco ms].
    destruct (checkins_do_aluno db aluno); cbn; apply NoDup_list_set. }
  intros p Hp Hbaixo dias x y. rewrite Hp.
  assert (Hall : forall s, s ∈ motivos (avaliar aluno now (checkins_do_aluno db aluno) (Some p))
                           -> motivo_de_faixa s).
  { intros s. destruct (checkins_do_aluno db aluno) as [|c hist].
    - unfold avaliar. destruct (classificar _ _ _ _ _) as [risco ms]. cbn.
      rewrite elem_of_list_set, list_elem_of_singleton. intros ->.
      right; right; reflexivity.
    - rewrite avaliar_motivos_nonempty, elem_of_list_set.
      unfold classificar. rewrite (faixa_baixo p Hbaixo), motivos_de_contexto_baixo.
      cbn. rewrite list_elem_of_singleton. intros ->.
      left. exists p. auto. }
  repeat split; intros Hin; apply Hall in Hin;
    apply (faixa_not_contextual _ Hin); unfold motivo_contextual; eauto.
Qed.

(** C5 (as amended). For a student without check-ins the predictor is still
    asked, on the metrics frequency 0, days 999, duration 0 and the plan
    code; the assessment the handler builds carries its answer rounded to 2
    decimals, and "N/A" only when the predictor has no answer.  (Whether
    that assessment is then served is the matter of C1.) *)
Theorem C5_empty_history_probability db now cp fs id aluno :
  get_or_404 db id = Some aluno ->
  checkins_do_aluno db aluno = [] ->
  let sem_historico :=
    {| ChurnModel.frequencia_semanal := 0%float;
       ChurnModel.dias_desde_ultimo_checkin := 999;
       ChurnModel.duracao_media_visitas_minutos := 0%float;
       ChurnModel.tipo_plano_encoded := tipo_plano_encoded aluno |} in
  previsao db now cp fs aluno = predict_churn_probability cp fs sem_historico
  /\ exists r,
      (get db now cp fs id).1 = Ok200 r
      /\ probabilidade_churn r
         = match (predict_churn_probability cp fs sem_historico).1 with
           | Some p => Value (np_round p 2)
           | None => NA
           end.
Proof.
  intros Hal Hvazio sem_historico.
  assert (Hprev : previsao db now cp fs aluno
                  = predict_churn_probability cp fs sem_historico).
  { unfold previsao. rewrite Hvazio. reflexivity. }
  split; [exact Hprev|].
  rewrite (get_found _ _ _ _ _ _ Hal), Hvazio, Hprev. cbn [fst].
  eexists; split; [reflexivity|].
  unfold avaliar. destruct (classificar _ _ _ _ _) as [risco ms]. reflexivity.
Qed.

(** *** Average duration *)

Lemma total_duracao_nonneg hist :
  Forall (fun c => forall d, duracao_minutos c = Some d -> 0 <= d) hist ->
  0 <= total_duracao hist.
Proof.
  unfold total_duracao. induction 1 as [|c l Hc Hl IH]; cbn; [lia|].
  destruct (duracao_minutos c) as [d|] eqn:E; cbn; [|exact IH].
  specialize (Hc d eq_refl). lia.
Qed.

(** C7 (as amended). With durations that are not negative, the average
    visit duration is the sum of the durations present divided by the number
    of all check-ins, and 0 for an empty history or a zero sum.  It is
    rounded to 1 decimal in the metrics handed to the churn model and in the
    returned metrics; the rule of the short-visit reason compares the
    average as it is, not rounded, with 30. *)
Theorem C7_average_duration db now cp fs id aluno :
  let hist := checkins_do_aluno db aluno in
  let media := duracao_media_visitas_minutos hist in
  get_or_404 db id = Some aluno ->
  Forall (fun c => forall d, duracao_minutos c = Some d -> 0 <= d) hist ->
  (hist = [] -> media = 0%float)
  /\ (total_duracao hist = 0 -> media = 0%float)
  /\ (hist <> [] -> total_duracao hist <> 0 ->
      media = truediv_int (total_duracao hist) (Z.of_nat (length hist)))
  /\ ChurnModel.duracao_media_visitas_minutos (aluno_metrics aluno now hist)
     = py_round media 1
  /\ exists r,
      (get db now cp fs id).1 = Ok200 r
      /\ metricas_duracao_media_visitas_minutos (metricas_calculadas r)
         = py_round media 1
      /\ (forall p,
            (previsao db now cp fs aluno).1 = Some p ->
            (faixa p).1 <> "Baixo" ->
            5 < Z.of_nat (length hist) ->
            (motivo_duracao media ∈ motivos r <-> (media <? 30)%float = true)).
Proof.
  intros hist media Hal Hpos.
  pose proof (total_duracao_nonneg hist Hpos) as Hge.
  assert (H0 : hist = [] -> media = 0%float) by (intros E; subst media; rewrite E; reflexivity).
  split; [exact H0|].
  split.
  { intros E. subst media. unfold duracao_media_visitas_minutos. rewrite E.
    destruct (0 <? Z.of_nat (length hist)); reflexivity. }
  split.
  { intros Hne Htot. subst media. unfold duracao_media_visitas_minutos.
    destruct hist as [|c l]; [congruence|].
    replace (0 <? Z.of_nat (length (c :: l))) with true by (symmetry; apply Z.ltb_lt; cbn; lia).
    replace (0 <? total_duracao (c :: l)) with true by (symmetry; apply Z.ltb_lt; lia).
    reflexivity. }
  split; [reflexivity|].
  rewrite (get_found _ _ _ _ _ _ Hal). cbn [fst]. fold hist.
  eexists; split; [reflexivity|].
  split.
  { unfold avaliar. destruct (classificar _ _ _ _ _) as [risco ms].
    destruct hist as [|c l] eqn:E; cbn; [|reflexivity].
    rewrite (H0 eq_refl). reflexivity. }
  intros p Hp Hnb H5. rewrite Hp.
  destruct hist as [|c l] eqn:E; [cbn in H5; lia|].
  rewrite avaliar_motivos_nonempty, elem_of_list_set. fold media.
  unfold classificar.
  pose proof (faixa_motivo_de_faixa p) as Hfx.
  destruct (faixa p) as [risco motivo] eqn:Ef. cbn [fst snd] in *.
  assert (Hr : negb (String.eqb risco "Baixo") = true).
  { apply negb_true_iff, String.eqb_neq. exact Hnb. }
  unfold motivos_de_contexto. rewrite Hr, !andb_true_r.
  replace (bool_decide (5 < Z.of_nat (length (c :: l)))) with true
    by (symmetry; apply bool_decide_eq_true; exact H5).
  rewrite andb_true_r.
  rewrite elem_of_cons, !elem_of_app.
  split.
  - intros [Heq|[Hin|[Hin|Hin]]].
    + exfalso. apply (faixa_not_contextual motivo Hfx).
      right; left. exists media. symmetry; exact Heq.
    + destruct (bool_decide _); [|inversion Hin].
      apply list_elem_of_singleton in Hin. discriminate.
    + destruct (media <? 30)%float; [reflexivity|inversion Hin].
    + destruct (frequencia_semanal now (c :: l) <? 1)%float; [|inversion Hin].
      apply list_elem_of_singleton in Hin. discriminate.
  - intros ->. right; right; left. apply list_elem_of_singleton. reflexivity.
Qed.

End RiskQuery.

Lemma C1_empty_history_not_served_witness :
  get_or_404 academia 2 = Some bia
  /\ checkins_do_aluno academia bia = []
  /\ (exists r,
        (@get (constante 0.8) academia agora (predictor 0.8) (disco 0.8) 2).1 = Ok200 r
        /\ risco_churn_classificacao r = "Indeterminado"
        /\ motivos r = [motivo_sem_checkins])
  /\ (@get_aluno_risco_churn (constante 0.8) academia agora
        (predictor 0.8) (disco 0.8) 2).1 = InternalServerError500.
Proof.
  assert (Hal : get_or_404 academia 2 = Some bia) by reflexivity.
  assert (Hvazio : checkins_do_aluno academia bia = []) by (vm_compute; reflexivity).
  split; [exact Hal|]. split; [exact Hvazio|].
  exact (proj2 (@C1_empty_history_not_served (constante 0.8) academia agora
                  (predictor 0.8) (disco 0.8) 2 bia Hal Hvazio)).
Defined.

Lemma C2_probability_tiers_witness :
  get_or_404 academia 1 = Some ana
  /\ checkins_do_aluno academia ana <> []
  /\ (@previsao (constante 0.7) academia agora (predictor 0.7) (disco 0.7) ana).1
     = Some 0.7%float
  /\ exists r,
      (@get (constante 0.7) academia agora (predictor 0.7) (disco 0.7) 1).1 = Ok200 r
      /\ risco_churn_classificacao r = "Muito Alto".
Proof.
  assert (Hal : get_or_404 academia 1 = Some ana) by reflexivity.
  assert (Hne : checkins_do_aluno academia ana <> []) by (vm_compute; discriminate).
  assert (Hp : (@previsao (constante 0.7) academia agora (predictor 0.7) (disco 0.7) ana).1
               = Some 0.7%float) by (vm_compute; reflexivity).
  split; [exact Hal|]. split; [exact Hne|]. split; [exact Hp|].
  destruct (@C2_probability_tiers (constante 0.7) academia agora
              (predictor 0.7) (disco 0.7) 1 ana 0.7%float Hal Hne Hp)
    as (r & Hr & H70 & _).
  exists r. split; [exact Hr|]. apply H70. reflexivity.
Defined.

Lemma C3_weekly_frequency_witness :
  checkins_do_aluno academia ana <> []
  /\ Forall naive_or_utc (checkins_do_aluno academia ana)
  /\ frequencia_semanal agora (checkins_do_aluno academia ana)
     = (float_of_int 2 / (30 / 7))%float
  /\ py_round (frequencia_semanal agora (checkins_do_aluno academia ana)) 2 = 0.47%float.
Proof.
  assert (Hne : checkins_do_aluno academia ana <> []) by (vm_compute; discriminate).
  assert (Hutc : Forall naive_or_utc (checkins_do_aluno academia ana)).
  { vm_compute. repeat constructor. }
  split; [exact Hne|]. split; [exact Hutc|].
  destruct (@C3_weekly_frequency academia ana agora Hne Hutc)
    as (primeiro & _ & _ & Hrec & _).
  split.
  - rewrite Hrec; [reflexivity | vm_compute; discriminate].
  - vm_compute. reflexivity.
Defined.

Lemma C4_low_tier_no_context_reasons_witness :
  get_or_404 (uma_visita 20) 1 = Some ana
  /\ (@previsao (constante 0.2999) (uma_visita 20) agora
        (predictor 0.2999) (disco 0.2999) ana).1 = Some 0.2999%float
  /\ (faixa 0.2999).1 = "Baixo"
  /\ dias_desde_ultimo_checkin agora (checkins_do_aluno (uma_visita 20) ana) = 20
  /\ exists r,
      (@get (constante 0.2999) (uma_visita 20) agora
         (predictor 0.2999) (disco 0.2999) 1).1 = Ok200 r
      /\ NoDup (motivos r)
      /\ motivo_ultimo_checkin 20 ∉ motivos r.
Proof.
  assert (Hal : get_or_404 (uma_visita 20) 1 = Some ana) by reflexivity.
  assert (Hp : (@previsao (constante 0.2999) (uma_visita 20) agora
                  (predictor 0.2999) (disco 0.2999) ana).1 = Some 0.2999%float)
    by (vm_compute; reflexivity).
  assert (Hb : (faixa 0.2999).1 = "Baixo") by (vm_compute; reflexivity).
  split; [exact Hal|]. split; [exact Hp|]. split; [exact Hb|].
  split; [vm_compute; reflexivity|].
  destruct (@C4_low_tier_no_context_reasons (constante 0.2999) (uma_visita 20) agora
              (predictor 0.2999) (disco 0.2999) 1 ana Hal)
    as (r & Hr & Hnd & Hctx).
  exists r. split; [exact Hr|]. split; [exact Hnd|].
  exact (proj1 (Hctx _ Hp Hb 20 0%float 0%float)).
Defined.

(** C5, as the claim states it, fails: Bia has no check-in, and the query
    does ask the model, which answers 0.8; the assessment the handler
    builds carries 0.8, not "N/A"; and no assessment with "N/A" for the
    probability is returned, the route answering 500. *)
Lemma C5_counterexample :
  checkins_do_aluno academia bia = []
  /\ (@previsao (constante 0.8) academia agora (predictor 0.8) (disco 0.8) bia).1
     = Some 0.8%float
  /\ (exists r,
        (@get (constante 0.8) academia agora (predictor 0.8) (disco 0.8) 2).1 = Ok200 r
        /\ probabilidade_churn r = Value 0.8%float
        /\ probabilidade_churn r <> NA)
  /\ (@get_aluno_risco_churn (constante 0.8) academia agora
        (predictor 0.8) (disco 0.8) 2).1 = InternalServerError500.
Proof.
  split; [vm_compute; reflexivity|].
  split; [vm_compute; reflexivity|].
  split; [|vm_compute; reflexivity].
  eexists. split; [vm_compute; reflexivity|].
  split; [reflexivity | discriminate].
Qed.

Lemma C5_empty_history_probability_witness :
  get_or_404 academia 2 = Some bia
  /\ checkins_do_aluno academia bia = []
  /\ exists r,
      (@get (constante 0.8) academia agora (predictor 0.8) (disco 0.8) 2).1 = Ok200 r
      /\ probabilidade_churn r = Value (np_round 0.8 2).
Proof.
  assert (Hal : get_or_404 academia 2 = Some bia) by reflexivity.
  assert (Hvazio : checkins_do_aluno academia bia = []) by (vm_compute; reflexivity).
  split; [exact Hal|]. split; [exact Hvazio|].
  destruct (@C5_empty_history_probability (constante 0.8) academia agora
              (predictor 0.8) (disco 0.8) 2 bia Hal Hvazio) as (_ & r & Hr & Hprob).
  exists r. split; [exact Hr|]. rewrite Hprob. vm_compute. reflexivity.
Defined.

(** C6, as the claim states it, fails twice: a history that is not empty
    yields 999 when its latest check-in is 999 days old, and a check-in
    dated after now yields a negative number. *)
Lemma C6_counterexample :
  (checkins_do_aluno (uma_visita 999) ana <> []
   /\ dias_desde_ultimo_checkin agora (checkins_do_aluno (uma_visita 999) ana) = 999)
  /\ (checkins_do_aluno (uma_visita (-1)) ana <> []
      /\ dias_desde_ultimo_checkin agora (checkins_do_aluno (uma_visita (-1)) ana) = -1).
Proof.
  split; (split; [vm_compute; discriminate | vm_compute; reflexivity]).
Qed.

(** C7, as the claim states it, fails: with 21 visits and 629 minutes the
    average is 29.95..., which is 30.0 rounded to 1 decimal; the metrics
    carry 30.0, yet the short-visit reason is given, the rule having
    compared the average that was not rounded. *)
Lemma C7_counterexample :
  let hist := checkins_do_aluno assidua ana in
  total_duracao hist = 629
  /\ Z.of_nat (length hist) = 21
  /\ (py_round (duracao_media_visitas_minutos hist) 1 <? 30)%float = false
  /\ exists r,
      (@get (constante 0.8) assidua agora (predictor 0.8) (disco 0.8) 1).1 = Ok200 r
      /\ metricas_duracao_media_visitas_minutos (metricas_calculadas r) = 30%float
      /\ "Duração média de visitas baixa (30.0 min)." ∈ motivos r.
Proof.
  cbv zeta. split; [vm_compute; reflexivity|].
  split; [vm_compute; reflexivity|].
  split; [vm_compute; reflexivity|].
  eexists. split; [vm_compute; reflexivity|].
  split; [reflexivity|].
  apply list_elem_of_In. cbn. auto.
Qed.

Lemma C7_average_duration_witness :
  get_or_404 academia 1 = Some ana
  /\ Forall (fun c => forall d, duracao_minutos c = Some d -> 0 <= d)
       (checkins_do_aluno academia ana)
  /\ duracao_media_visitas_minutos (checkins_do_aluno academia ana) = truediv_int 115 3
  /\ ChurnModel.duracao_media_visitas_minutos
       (aluno_metrics ana agora (checkins_do_aluno academia ana)) = 38.3%float.
Proof.
  assert (Hal : get_or_404 academia 1 = Some ana) by reflexivity.
  assert (Hpos : Forall (fun c => forall d, duracao_minutos c = Some d -> 0 <= d)
                   (checkins_do_aluno academia ana)).
  { vm_compute. repeat constructor; intros d E; inversion E; discriminate. }
  split; [exact Hal|]. split; [exact Hpos|].
  destruct (@C7_average_duration (constante 0.8) academia agora
              (predictor 0.8) (disco 0.8) 1 ana Hal Hpos)
    as (_ & _ & Hmedia & Hmetric & _).
  split.
  - rewrite Hmedia; [reflexivity | vm_compute; discriminate | vm_compute; discriminate].
  - rewrite Hmetric. vm_compute. reflexivity.
Defined.

(** ** Retraining *)

Section Retraining.
Context `{Sklearn}.

Lemma retrain_twice self fs :
  retrain_and_save_model (retrain_and_save_model self fs).1
                         (retrain_and_save_model self fs).2
  = retrain_and_save_model self fs.
Proof.
  unfold retrain_and_save_model, train_model, save_model.
  cbn [fst snd model model_path features].
  f_equal. apply (insert_insert_eq (M:=gmap string)).
Qed.

Lemma retrain_iter self fs n :
  Nat.iter (S n) (fun st => retrain_and_save_model st.1 st.2) (self, fs)
  = retrain_and_save_model self fs.
Proof.
  induction n as [|n IH]; [reflexivity|].
  change (Nat.iter (S (S n)) ?f ?x) with (f (Nat.iter (S n) f x)).
  rewrite IH. cbv beta. apply retrain_twice.
Qed.

(** C10. A retrain fits the fixed dummy data with the solver "liblinear"
    and the seed 42, whatever model was there before, and saves it: a second
    retrain leaves the predictor and the saved file as the first did, and
    after any number of further retrains every prediction is the one given
    after the first. *)
Theorem C10_retrain_idempotent self fs n data :
  let once := retrain_and_save_model self fs in
  let artifact :=
    LogisticRegression_fit "liblinear" 42
      (select create_dummy_data (features self)) (col create_dummy_data "churn") in
  model once.1 = Some artifact
  /\ once.2 !! model_path self = Some (Dump artifact)
  /\ retrain_and_save_model once.1 once.2 = once
  /\ Nat.iter (S n) (fun st => retrain_and_save_model st.1 st.2) (self, fs) = once
  /\ (let again :=
        Nat.iter (S n) (fun st => retrain_and_save_model st.1 st.2) (self, fs) in
      predict_churn_probability again.1 again.2 data
      = predict_churn_probability once.1 once.2 data)
  /\ (predict_churn_probability once.1 once.2 data).1
     = Some (predict_proba artifact data).2.
Proof.
  intros once artifact. subst once.
  split; [reflexivity|].
  split; [apply (lookup_insert_eq (M:=gmap string))|].
  split; [apply retrain_twice|].
  split; [apply retrain_iter|].
  split; [cbv zeta; rewrite retrain_iter; reflexivity|].
  reflexivity.
Qed.

End Retraining.

(** ** The queue callback *)

Section Acknowledgment.
Context `{Sklearn}.
Context (json_loads : string -> option json).
Context (fromisoformat : string -> option datetime).
Context (date_isoformat : Z -> string).

Lemma appends_ret {A} P (a : A) : appends P (ret a).
Proof. intros w. exists []. cbn. rewrite app_nil_r. auto. Qed.

Lemma appends_raise {A} P e : appends (A:=A) P (raise e).
Proof. intros w. exists []. cbn. rewrite app_nil_r. auto. Qed.

Lemma appends_bind {A B} P (m : M A) (k : A -> M B) :
  appends P m -> (forall a, appends P (k a)) -> appends P (bind m k).
Proof.
  intros Hm Hk w. unfold bind.
  destruct (Hm w) as (evs & Hevs & HP).
  destruct (m w) as [[a|e] w']; cbn in *.
  - destruct (Hk a w') as (evs' & Hevs' & HP').
    exists (evs ++ evs'). rewrite Hevs', Hevs, app_assoc.
    split; [reflexivity | apply Forall_app; auto].
  - exists evs. auto.
Qed.

Lemma appends_emit P e : P e -> appends P (emit e).
Proof. intros He w. exists [e]. cbn. auto. Qed.

Lemma appends_print P l : P (Print l) -> appends P (print l).
Proof.
  intros HP. unfold print.
  destruct (printable l); [apply appends_emit; exact HP | apply appends_raise].
Qed.

Lemma appends_sleep P ms : P (Sleep ms) -> appends P (sleep ms).
Proof. intros He w. exists [Sleep ms]. cbn. auto. Qed.

Lemma appends_dict_get P d key dflt : appends P (dict_get d key dflt).
Proof. destruct d; first [apply appends_ret | apply appends_raise]. Qed.

Lemma appends_iter P v : appends P (iter v).
Proof. destruct v; first [apply appends_ret | apply appends_raise]. Qed.

Lemma appends_for_each {A} P (l : list A) body :
  (forall a, appends P (body a)) -> appends P (for_each l body).
Proof.
  intros Hb. induction l as [|a l IH]; cbn [for_each].
  - apply appends_ret.
  - apply appends_bind; auto.
Qed.

Lemma appends_rows_between P a b : appends P (rows_between a b).
Proof.
  intros w. exists []. unfold rows_between.
  destruct (store w); cbn; rewrite app_nil_r; auto.
Qed.

Lemma appends_retrain P : P Retrain -> appends P retrain.
Proof.
  intros He w. exists [Retrain]. unfold retrain.
  destruct (retrain_and_save_model _ _). cbn. auto.
Qed.

Lemma appends_now_date P : appends P now_date.
Proof. intros w. exists []. cbn. rewrite app_nil_r. auto. Qed.

(** The handlers never answer the broker themselves. *)
Lemma handle_quiet body :
  appends quiet (handle json_loads fromisoformat date_isoformat body).
Proof.
  unfold handle, session_query, mbind, M_bind, mret, M_ret.
  repeat first
    [ apply appends_bind; [|intros ?]
    | apply appends_for_each; intros ?
    | apply appends_ret
    | apply appends_raise
    | apply appends_dict_get
    | apply appends_iter
    | apply appends_rows_between
    | apply appends_now_date
    | apply appends_print; exact I
    | apply appends_sleep; exact I
    | apply appends_emit; exact I
    | apply appends_retrain; exact I
    | match goal with
      | |- appends _ (if ?b then _ else _) => destruct b
      | |- appends _ (match ?x with _ => _ end) => destruct x
      end ].
Qed.

Lemma quiet_not_ack evs t : Forall quiet evs -> BasicAck t ∉ evs.
Proof.
  intros Hq Hin. rewrite Forall_forall in Hq. exact (Hq _ Hin).
Qed.

Lemma quiet_not_nack evs t : Forall quiet evs -> BasicNack t ∉ evs.
Proof.
  intros Hq Hin. rewrite Forall_forall in Hq. exact (Hq _ Hin).
Qed.

Lemma handle_json_error body w :
  json_loads body = None ->
  (handle json_loads fromisoformat date_isoformat body w).1 = Raise JSONDecodeError.
Proof.
  intros E. unfold handle, mbind, M_bind, bind. rewrite E. reflexivity.
Qed.

(** The [try] block of the callback, with its handlers and its [finally]. *)
Lemma try_block_trace delivery_tag body w0 :
  exists evs,
    Forall quiet evs
    /\ trace (try_finally
               (try_except
                  (handle json_loads fromisoformat date_isoformat body;;
                   emit (BasicAck delivery_tag);;
                   print (Confirmada delivery_tag))
                  (fun e =>
                     match e with
                     | JSONDecodeError =>
                         print (ErroJson body);;
                         emit SessionRollback;;
                         emit (BasicNack delivery_tag)
                     | _ =>
                         print (ErroProcessar e body);;
                         emit SessionRollback;;
                         emit (BasicNack delivery_tag)
                     end))
               (emit SessionClose) w0).2
      = trace w0 ++ evs ++
        match (handle json_loads fromisoformat date_isoformat body w0).1 with
        | Return _ =>
            [BasicAck delivery_tag; Print (Confirmada delivery_tag); SessionClose]
        | Raise JSONDecodeError =>
            [Print (ErroJson body); SessionRollback; BasicNack delivery_tag; SessionClose]
        | Raise e =>
            [Print (ErroProcessar e body); SessionRollback; BasicNack delivery_tag;
             SessionClose]
        end.
Proof.
  destruct (handle_quiet body w0) as (evs & Hevs & Hq).
  exists evs. split; [exact Hq|].
  unfold try_finally, try_except, mbind, M_bind, bind.
  destruct (handle json_loads fromisoformat date_isoformat body w0) as [[u|e] w1];
    cbn [fst snd] in *.
  - cbn. rewrite Hevs, <- !app_assoc. reflexivity.
  - destruct e; cbn; rewrite Hevs, <- !app_assoc; reflexivity.
Qed.

(** C8. A delivered message is acknowledged exactly when its handler ran to
    the end without raising; when the payload is not JSON, or the handler
    raised, the message is negatively acknowledged and never acknowledged. *)
Theorem C8_ack_iff_handler_completes delivery_tag body w :
  let w0 := (emit SessionOpen w).2 in
  let r := (handle json_loads fromisoformat date_isoformat body w0).1 in
  exists evs,
    trace (process_checkin_message json_loads fromisoformat date_isoformat
             delivery_tag body w).2 = trace w ++ evs
    /\ (BasicAck delivery_tag ∈ evs <-> r = Return tt)
    /\ (r = Return tt -> forall t, BasicNack t ∉ evs)
    /\ (forall e, r = Raise e ->
          BasicNack delivery_tag ∈ evs /\ forall t, BasicAck t ∉ evs)
    /\ (json_loads body = None ->
          BasicNack delivery_tag ∈ evs /\ forall t, BasicAck t ∉ evs).
Proof.
  intros w0 r.
  destruct (try_block_trace delivery_tag body w0) as (evs & Hq & Htr).
  fold r in Htr.
  set (tail := match r with
               | Return _ =>
                   [BasicAck delivery_tag; Print (Confirmada delivery_tag); SessionClose]
               | Raise JSONDecodeError =>
                   [Print (ErroJson body); SessionRollback; BasicNack delivery_tag;
                    SessionClose]
               | Raise e =>
                   [Print (ErroProcessar e body); SessionRollback;
                    BasicNack delivery_tag; SessionClose]
               end) in *.
  exists (SessionOpen :: evs ++ tail).
  assert (Hraise : forall e, r = Raise e ->
            BasicNack delivery_tag ∈ SessionOpen :: evs ++ tail
            /\ forall t, BasicAck t ∉ SessionOpen :: evs ++ tail).
  { intros e Hr. subst tail. rewrite Hr. split.
    - apply elem_of_cons; right. apply elem_of_app; right.
      destruct e; repeat (apply elem_of_cons; first [left; reflexivity | right]).
    - intros t Hin. apply elem_of_cons in Hin as [Hin|Hin]; [discriminate|].
      apply elem_of_app in Hin as [Hin|Hin]; [exact (quiet_not_ack _ _ Hq Hin)|].
      destruct e; repeat (apply elem_of_cons in Hin as [Hin|Hin]; [discriminate|]);
        inversion Hin. }
  split.
  { unfold process_checkin_message, mbind, M_bind, bind at 1.
    change (emit SessionOpen w) with (Return tt, w0).
    cbv iota beta. etransitivity; [exact Htr|].
    subst w0. cbn. rewrite <- app_assoc. reflexivity. }
  split.
  { split.
    - intros Hin. destruct r as [[]|e] eqn:Hr; [reflexivity|].
      exfalso. exact (proj2 (Hraise e eq_refl) _ Hin).
    - intros Hr. subst tail. rewrite Hr.
      apply elem_of_cons; right. apply elem_of_app; right.
      apply elem_of_cons; left. reflexivity. }
  split.
  { intros Hr t Hin. subst tail. rewrite Hr in Hin.
    apply elem_of_cons in Hin as [Hin|Hin]; [discriminate|].
    apply elem_of_app in Hin as [Hin|Hin]; [exact (quiet_not_nack _ _ Hq Hin)|].
    repeat (apply elem_of_cons in Hin as [Hin|Hin]; [discriminate|]).
    inversion Hin. }
  split; [exact Hraise|].
  intros E. apply (Hraise JSONDecodeError). subst r. apply handle_json_error. exact E.
Qed.

(** C9 (as amended). A message that parses to an object whose type is none
    of the four known ones, and can be printed (it is no string with a lone
    surrogate), is answered with a warning and an acknowledgment, and
    nothing else: no handler runs, nothing is raised or negatively
    acknowledged, and the predictor and its files are as before. *)
Theorem C9_unknown_type_acknowledged delivery_tag body w o :
  let message_type := default JNull (o !! "type") in
  let w' := (process_checkin_message json_loads fromisoformat date_isoformat
               delivery_tag body w).2 in
  json_loads body = Some (JObj o) ->
  (forall known,
      known ∈ ["new_checkin_event"; "bulk_checkin_event";
               "generate_daily_report_event"; "retrain_model_event"] ->
      message_type <> JStr known) ->
  printable_value message_type = true ->
  (process_checkin_message json_loads fromisoformat date_isoformat
     delivery_tag body w).1 = Return tt
  /\ trace w'
     = trace w ++
       [SessionOpen;
        Print (Recebida message_type (JObj o));
        Print (TipoDesconhecido message_type (JObj o));
        BasicAck delivery_tag;
        Print (Confirmada delivery_tag);
        SessionClose]
  /\ nivel_de (TipoDesconhecido message_type (JObj o)) = WARNING
  /\ churn_predictor_consumer w' = churn_predictor_consumer w
  /\ files w' = files w
  /\ store w' = store w
  /\ clock w' = clock w.
Proof.
  intros message_type w' Hjson Hunknown Hprint. subst w'.
  assert (Hne : forall known,
             known ∈ ["new_checkin_event"; "bulk_checkin_event";
                      "generate_daily_report_event"; "retrain_model_event"] ->
             eq_str message_type known = false).
  { intros known Hin. specialize (Hunknown known Hin).
    destruct message_type; cbn; try reflexivity.
    apply String.eqb_neq. congruence. }
  unfold process_checkin_message, handle, try_finally, try_except,
    mbind, M_bind, bind, dict_get, print.
  rewrite Hjson. cbn [emit ret fst snd printable printable_value].
  fold message_type.
  rewrite (Hne "new_checkin_event"), (Hne "bulk_checkin_event"),
    (Hne "generate_daily_report_event"), (Hne "retrain_model_event")
    by (rewrite !elem_of_cons; auto 10).
  rewrite Hprint.
  cbn. rewrite <- !app_assoc. cbn. auto 10.
Qed.

End Acknowledgment.

(** C9, as the claim states it, fails twice.  The payload [[]] is
    well-formed JSON of none of the four types, and is negatively
    acknowledged: a list has no [get].  An object whose type is a lone
    surrogate is of none of the four types either; the first [print] raises
    on it, and the message is negatively acknowledged, with no warning. *)
Lemma C9_counterexample :
  (loads corpo_lista = Some (JArr [])
   /\ entrega corpo_lista
      = [SessionOpen; Print (ErroProcessar AttributeError corpo_lista);
         SessionRollback; BasicNack 7; SessionClose])
  /\ (MaisExemplos.loads2 MaisExemplos.corpo_surrogate
      = Some (JObj {[ "type" := JStr MaisExemplos.lone_surrogate ]})
      /\ eq_str (JStr MaisExemplos.lone_surrogate) "new_checkin_event"
         || eq_str (JStr MaisExemplos.lone_surrogate) "bulk_checkin_event"
         || eq_str (JStr MaisExemplos.lone_surrogate) "generate_daily_report_event"
         || eq_str (JStr MaisExemplos.lone_surrogate) "retrain_model_event" = false
      /\ trace (MaisExemplos.entrega2 MaisExemplos.corpo_surrogate)
         = [SessionOpen;
            Print (ErroProcessar UnicodeEncodeError MaisExemplos.corpo_surrogate);
            SessionRollback; BasicNack 7; SessionClose]).
Proof.
  split; [split; vm_compute; reflexivity|].
  split; [vm_compute; reflexivity|].
  split; vm_compute; reflexivity.
Qed.

Lemma C9_unknown_type_acknowledged_witness :
  loads corpo_foo = Some (JObj {[ "type" := JStr "foo" ]})
  /\ printable_value (JStr "foo") = true
  /\ entrega corpo_foo
     = [SessionOpen;
        Print (Recebida (JStr "foo") (JObj {[ "type" := JStr "foo" ]}));
        Print (TipoDesconhecido (JStr "foo") (JObj {[ "type" := JStr "foo" ]}));
        BasicAck 7;
        Print (Confirmada 7);
        SessionClose].
Proof.
  assert (Hjson : loads corpo_foo = Some (JObj {[ "type" := JStr "foo" ]}))
    by (vm_compute; reflexivity).
  split; [exact Hjson|].
  assert (Hunknown : forall known,
             known ∈ ["new_checkin_event"; "bulk_checkin_event";
                      "generate_daily_report_event"; "retrain_model_event"] ->
             default JNull (({[ "type" := JStr "foo" ]} : gmap string json) !! "type")
             <> JStr known).
  { intros known Hin. vm_compute.
    rewrite !elem_of_cons, elem_of_nil in Hin.
    destruct Hin as [-> | [-> | [-> | [-> | []]]]]; discriminate. }
  assert (Hprint : printable_value
             (default JNull (({[ "type" := JStr "foo" ]} : gmap string json) !! "type"))
           = true) by (vm_compute; reflexivity).
  split; [vm_compute; reflexivity|].
  exact (proj1 (proj2 (@C9_unknown_type_acknowledged (constante 0.8) loads
                         (fun _ => None) (fun _ => "1970-01-01") 7
                         corpo_foo mundo _ Hjson Hunknown Hprint))).
Defined.

(** The callback on four other payloads: a bulk event is acknowledged after
    its two items; a bulk event whose ids cannot be iterated, a payload that
    is a list, and a payload that is not JSON are negatively acknowledged. *)
Example entrega_bulk :
  entrega corpo_bulk
  = [SessionOpen;
     Print (Recebida (JStr "bulk_checkin_event")
              (JObj {[ "type" := JStr "bulk_checkin_event";
                       "checkin_ids" := JArr [JInt 1; JInt 2] ]}));
     Print (ProcessandoMassa (JArr [JInt 1; JInt 2]));
     Print (SubProcess (JInt 1)); Sleep 500;
     Print (SubProcess (JInt 2)); Sleep 500;
     Print (MassaProcessados 2);
     BasicAck 7; Print (Confirmada 7); SessionClose].
Proof. vm_compute. reflexivity. Qed.

Example entrega_bulk_not_iterable :
  entrega corpo_bulk_3
  = [SessionOpen;
     Print (Recebida (JStr "bulk_checkin_event")
              (JObj {[ "type" := JStr "bulk_checkin_event"; "checkin_ids" := JInt 3 ]}));
     Print (ProcessandoMassa (JInt 3));
     Print (ErroProcessar TypeError corpo_bulk_3);
     SessionRollback; BasicNack 7; SessionClose].
Proof. vm_compute. reflexivity. Qed.

Example entrega_not_an_object :
  entrega corpo_lista
  = [SessionOpen; Print (ErroProcessar AttributeError corpo_lista);
     SessionRollback; BasicNack 7; SessionClose].
Proof. vm_compute. reflexivity. Qed.

Example entrega_not_json :
  entrega "{"
  = [SessionOpen; Print (ErroJson "{"); SessionRollback; BasicNack 7; SessionClose].
Proof. vm_compute. reflexivity. Qed.

(** * Further properties of the predictor and of the risk query *)

Section PredictorLifecycle.
Context `{Sklearn}.

(** A predictor that holds a model answers from it, whatever the disk. *)
Lemma predict_with_model self m disk data :
  model self = Some m ->
  predict_churn_probability self disk data
  = (Some (predict_proba m data).2, (self, disk)).
Proof.
  intros Hm. unfold predict_churn_probability. rewrite Hm. cbn. rewrite Hm.
  reflexivity.
Qed.

(** X1. A new predictor on a path without file fits the dummy data and
    dumps the estimator there; on a dump of an estimator it loads that
    estimator and leaves the disk as it is.  Either way the model it holds is
    the one under its path, and every later prediction is the model's
    answer, without a look at the disk, whatever the disk has become.  On a
    pickle of a falsy object the predictor holds no model, the disk is left,
    and a prediction reads the file again and has no answer. *)
Theorem X1_init_loads_or_trains path fs :
  let st := init path fs in
  let artifact :=
    LogisticRegression_fit "liblinear" 42
      (select create_dummy_data
         ["frequencia_semanal"; "dias_desde_ultimo_checkin";
          "duracao_media_visitas_minutos"; "tipo_plano_encoded"])
      (col create_dummy_data "churn") in
  model_path st.1 = path
  /\ (fs !! path = None ->
      model st.1 = Some artifact /\ st.2 = <[path := Dump artifact]> fs)
  /\ (forall m, fs !! path = Some (Dump m) -> model st.1 = Some m /\ st.2 = fs)
  /\ (fs !! path = Some Falsy -> model st.1 = None /\ st.2 = fs)
  /\ (forall m, model st.1 = Some m ->
        st.2 !! path = Some (Dump m)
        /\ forall disk data,
             predict_churn_probability st.1 disk data
             = (Some (predict_proba m data).2, (st.1, disk)))
  /\ (model st.1 = None ->
        forall data, predict_churn_probability st.1 st.2 data = (None, st)).
Proof.
  intros st artifact. subst st. unfold init, load_model.
  cbn [model_path features].
  destruct (fs !! path) as [[m|]|] eqn:E; cbn [fst snd model model_path].
  - split; [reflexivity|]. split; [discriminate|].
    split; [intros m' [= ->]; auto|]. split; [discriminate|].
    split; [|discriminate].
    intros m' [= ->]. split; [exact E|]. intros disk data.
    apply predict_with_model. reflexivity.
  - split; [reflexivity|]. split; [discriminate|].
    split; [discriminate|]. split; [auto|].
    split; [discriminate|].
    intros _ data. unfold predict_churn_probability, load_model.
    cbn [model model_path]. rewrite E. reflexivity.
  - split; [reflexivity|]. split; [auto|].
    split; [discriminate|]. split; [discriminate|].
    split; [|discriminate].
    intros m' [= <-]. split; [apply (lookup_insert_eq (M:=gmap string))|].
    intros disk data. apply predict_with_model. reflexivity.
Qed.

(** X3. What a retrain saves is what a predictor created afterwards on the
    same path loads, the disk staying as the retrain left it; files under
    other paths are not touched by the retrain. *)
Theorem X3_retrained_model_survives_restart self fs :
  let st := retrain_and_save_model self fs in
  model (init (model_path self) st.2).1 = model st.1
  /\ (init (model_path self) st.2).2 = st.2
  /\ (forall q, q <> model_path self -> st.2 !! q = fs !! q).
Proof.
  intros st. subst st.
  unfold retrain_and_save_model, train_model, save_model, init, load_model.
  cbn [fst snd model model_path features].
  match goal with
  | |- context [(<[?k := ?v]> ?m) !! ?k] =>
      replace ((<[k := v]> m) !! k) with (Some v)
        by (symmetry; apply (lookup_insert_eq (M:=gmap string)))
  end.
  cbn. repeat split. intros q Hq.
  apply (lookup_insert_ne (M:=gmap string)). congruence.
Qed.

End PredictorLifecycle.

Section RiskQueryMore.
Context `{Sklearn}.



(** X5. The plan code is 1, 2 or 3 exactly for a plan named "Mensal",
    "Trimestral" or "Anual", and 0 for a student without plan or with a
    plan of any other name; the query returns the code it hands to the
    model. *)
Theorem X5_plan_code aluno now hist churn_prob :
  let code := tipo_plano_encoded aluno in
  0 <= code <= 3
  /\ (code = 1 <-> exists p, plano aluno = Some p /\ nome_plano p = "Mensal")
  /\ (code = 2 <-> exists p, plano aluno = Some p /\ nome_plano p = "Trimestral")
  /\ (code = 3 <-> exists p, plano aluno = Some p /\ nome_plano p = "Anual")
  /\ ChurnModel.tipo_plano_encoded (aluno_metrics aluno now hist) = code
  /\ metricas_tipo_plano_encoded
       (metricas_calculadas (avaliar aluno now hist churn_prob)) = code.
Proof.
  intros code. subst code.
  assert (Hret : metricas_tipo_plano_encoded
            (metricas_calculadas (avaliar aluno now hist churn_prob))
          = tipo_plano_encoded aluno).
  { unfold avaliar. destruct (classificar _ _ _ _ _).
    destruct hist; reflexivity. }
  assert (Hmet : ChurnModel.tipo_plano_encoded (aluno_metrics aluno now hist)
                 = tipo_plano_encoded aluno) by reflexivity.
  rewrite Hmet. clear Hmet.
  unfold tipo_plano_encoded in Hret |- *.
  destruct (plano aluno) as [p|].
  - destruct (String.eqb_spec (nome_plano p) "Mensal") as [E1|E1];
      [|destruct (String.eqb_spec (nome_plano p) "Trimestral") as [E2|E2];
        [|destruct (String.eqb_spec (nome_plano p) "Anual") as [E3|E3]]].
    all: split; [lia|].
    all: repeat (split; [first
           [ exact Hret | reflexivity
           | split;
             [ intros Hc; first [discriminate Hc | eauto]
             | intros (q & [= <-] & Hq); first [reflexivity | congruence] ] ]|]).
    all: exact Hret.
  - split; [lia|].
    repeat (split; [first
      [ exact Hret | reflexivity
      | split; [discriminate | intros (q & Hq & _); discriminate] ]|]).
    exact Hret.
Qed.

(** X6. With the history fixed, the days since the last check-in never go
    down as the clock moves forward. *)
Theorem X6_days_monotone now now' hist :
  now <= now' ->
  dias_desde_ultimo_checkin now hist <= dias_desde_ultimo_checkin now' hist.
Proof.
  intros Hle. destruct hist as [|c l]; [reflexivity|].
  unfold dias_desde_ultimo_checkin, days, sub, usec_per_day.
  apply Z.div_le_mono; [lia|]. cbn. lia.
Qed.

(** X7. The query answers 404 exactly when no student has the id, and then
    leaves the predictor alone; any other answer carries the id asked for
    and the name of a student of the store with that id. *)
Theorem X7_not_found_iff db now cp fs id :
  ((get db now cp fs id).1 = Abort404
   <-> forall a, a ∈ alunos db -> aluno_id a <> id)
  /\ ((get db now cp fs id).1 = Abort404 -> (get db now cp fs id).2 = (cp, fs))
  /\ (forall r, (get db now cp fs id).1 = Ok200 r ->
        resposta_aluno_id r = id
        /\ exists a, a ∈ alunos db /\ aluno_id a = id /\ nome_aluno r = nome a).
Proof.
  unfold get, get_or_404.
  destruct (list_find (fun a => aluno_id a = id) (alunos db)) as [[i a]|] eqn:E; cbn.
  - apply list_find_Some in E as (Hi & Ha & _).
    apply list_elem_of_lookup_2 in Hi.
    destruct (predict_churn_probability _ _ _) as [prob st]. cbn.
    split; [split; [discriminate | intros Hall; exfalso; exact (Hall a Hi Ha)]|].
    split; [discriminate|].
    intros r [= <-].
    assert (Hid : resposta_aluno_id
                    (avaliar a now (checkins_do_aluno db a) prob) = aluno_id a
                  /\ nome_aluno (avaliar a now (checkins_do_aluno db a) prob) = nome a).
    { unfold avaliar. destruct (classificar _ _ _ _ _).
      destruct (checkins_do_aluno db a); split; reflexivity. }
    destruct Hid as [-> Hn]. split; [exact Ha|]. exists a. auto.
  - apply list_find_None in E. rewrite Forall_forall in E.
    split; [split; [intros _; exact E | reflexivity]|].
    split; [reflexivity | discriminate].
Qed.

End RiskQueryMore.

(** The route on the two students of [academia]: Ana is served her
    assessment, Bia, who never came, is answered 500. *)
Example servido_ana :
  (@get_aluno_risco_churn (constante 0.8) academia agora (predictor 0.8) (disco 0.8) 1).1
  = Response200 (avaliar ana agora (checkins_do_aluno academia ana) (Some 0.8%float)).
Proof. vm_compute. reflexivity. Qed.

(** With a model file that loads to nothing, the handler rates Ana "Erro na
    Previsão" and writes "N/A" for the probability; that is answered 500
    too. *)
Example servido_sem_modelo :
  (exists r,
      (@get (constante 0.8) academia agora (predictor_sem_modelo 0.8) (disco_falsy 0.8) 1).1
      = Ok200 r
      /\ risco_churn_classificacao r = "Erro na Previsão"
      /\ probabilidade_churn r = NA)
  /\ (@get_aluno_risco_churn (constante 0.8) academia agora
        (predictor_sem_modelo 0.8) (disco_falsy 0.8) 1).1 = InternalServerError500.
Proof.
  split; [|vm_compute; reflexivity].
  eexists. split; [vm_compute; reflexivity|]. split; reflexivity.
Qed.

Example servido_bia :
  (@get_aluno_risco_churn (constante 0.8) academia agora (predictor 0.8) (disco 0.8) 2).1
  = InternalServerError500.
Proof. vm_compute. reflexivity. Qed.

Lemma X6_days_monotone_witness :
  agora <= agora + usec_per_day
  /\ dias_desde_ultimo_checkin agora (checkins_do_aluno academia ana) = 1
  /\ dias_desde_ultimo_checkin (agora + usec_per_day) (checkins_do_aluno academia ana) = 2
  /\ dias_desde_ultimo_checkin agora (checkins_do_aluno academia ana)
     <= dias_desde_ultimo_checkin (agora + usec_per_day) (checkins_do_aluno academia ana).
Proof.
  assert (Hle : agora <= agora + usec_per_day) by (vm_compute; discriminate).
  split; [exact Hle|].
  split; [vm_compute; reflexivity|]. split; [vm_compute; reflexivity|].
  exact (X6_days_monotone agora (agora + usec_per_day)
           (checkins_do_aluno academia ana) Hle).
Defined.

Section Reasons.

Lemma length_list_set (l : list string) : (length (list_set l) <= length l)%nat.
Proof.
  apply submseteq_length, NoDup_submseteq; [apply NoDup_list_set|].
  intros x. apply elem_of_list_set.
Qed.

(** X9. For a history that is not empty and a probability whose tier is not
    "Baixo", the reasons are the tier's own reason and, each under its own
    test and no other, the reason of the last check-in (more than 15 days
    ago) and the reason of the low frequency (below 1 a week, with more than
    5 check-ins): at least one reason, at most four. *)
Theorem X9_reasons_of_context aluno now c l p :
  let hist := c :: l in
  let r := avaliar aluno now hist (Some p) in
  let dias := dias_desde_ultimo_checkin now hist in
  let frequencia := frequencia_semanal now hist in
  (faixa p).1 <> "Baixo" ->
  (faixa p).2 ∈ motivos r
  /\ (motivo_ultimo_checkin dias ∈ motivos r <-> 15 < dias)
  /\ (motivo_frequencia frequencia ∈ motivos r
      <-> (frequencia <? 1)%float = true /\ 5 < Z.of_nat (length hist))
  /\ (1 <= length (motivos r) <= 4)%nat.
Proof.
  intros hist r dias frequencia Hnb. subst r dias frequencia hist.
  rewrite avaliar_motivos_nonempty.
  set (hist := c :: l).
  set (dias := dias_desde_ultimo_checkin now hist).
  set (frequencia := frequencia_semanal now hist).
  unfold classificar.
  pose proof (faixa_motivo_de_faixa p) as Hfx.
  destruct (faixa p) as [risco motivo] eqn:Ef. cbn [fst snd] in *.
  assert (Hr : negb (String.eqb risco "Baixo") = true).
  { apply negb_true_iff, String.eqb_neq. exact Hnb. }
  set (ctx := motivos_de_contexto risco dias (duracao_media_visitas_minutos hist)
                frequencia (Z.of_nat (length hist))).
  assert (Hlen : (length ctx <= 3)%nat).
  { subst ctx. unfold motivos_de_contexto. rewrite !length_app.
    repeat match goal with
           | |- context [if ?b then _ else _] => destruct b
           end; cbn; lia. }
  split; [apply elem_of_list_set, elem_of_cons; auto|].
  split; [|split].
  - rewrite elem_of_list_set, elem_of_cons. subst ctx.
    unfold motivos_de_contexto. rewrite Hr, !andb_true_r, !elem_of_app.
    split.
    + intros [Heq|[Hin|[Hin|Hin]]].
      * exfalso. apply (faixa_not_contextual motivo Hfx).
        left. exists dias. symmetry; exact Heq.
      * destruct (bool_decide (15 < dias)) eqn:E; [|inversion Hin].
        apply bool_decide_eq_true in E. exact E.
      * destruct (_ && _); [|inversion Hin].
        apply list_elem_of_singleton in Hin. discriminate.
      * destruct (_ && _); [|inversion Hin].
        apply list_elem_of_singleton in Hin. discriminate.
    + intros Hd. right; left.
      replace (bool_decide (15 < dias)) with true
        by (symmetry; apply bool_decide_eq_true; exact Hd).
      apply list_elem_of_singleton. reflexivity.
  - rewrite elem_of_list_set, elem_of_cons. subst ctx.
    unfold motivos_de_contexto. rewrite Hr, !andb_true_r, !elem_of_app.
    split.
    + intros [Heq|[Hin|[Hin|Hin]]].
      * exfalso. apply (faixa_not_contextual motivo Hfx).
        right; right. exists frequencia. symmetry; exact Heq.
      * destruct (bool_decide (15 < dias)); [|inversion Hin].
        apply list_elem_of_singleton in Hin. discriminate.
      * destruct (_ && _); [|inversion Hin].
        apply list_elem_of_singleton in Hin. discriminate.
      * destruct (frequencia <? 1)%float; cbn [andb] in Hin; [|inversion Hin].
        destruct (bool_decide (5 < Z.of_nat (length hist))) eqn:E; [|inversion Hin].
        apply bool_decide_eq_true in E. split; [reflexivity | exact E].
    + intros [Hf H5]. right; right; right. rewrite Hf.
      replace (bool_decide (5 < Z.of_nat (length hist))) with true
        by (symmetry; apply bool_decide_eq_true; exact H5).
      apply list_elem_of_singleton. reflexivity.
  - split.
    + assert (Hin : motivo ∈ list_set (motivo :: ctx))
        by (apply elem_of_list_set, elem_of_cons; auto).
      destruct (list_set (motivo :: ctx)); [inversion Hin | cbn; lia].
    + pose proof (length_list_set (motivo :: ctx)) as Hle. cbn in Hle. lia.
Qed.

End Reasons.

Lemma X9_reasons_of_context_witness :
  (faixa 0.8).1 <> "Baixo"
  /\ dias_desde_ultimo_checkin agora (checkins_do_aluno (uma_visita 20) ana) = 20
  /\ "Último check-in há 20 dias."
     ∈ motivos (avaliar ana agora (checkins_do_aluno (uma_visita 20) ana) (Some 0.8%float)).
Proof.
  assert (Hnb : (faixa 0.8).1 <> "Baixo") by (vm_compute; discriminate).
  split; [exact Hnb|]. split; [vm_compute; reflexivity|].
  pose proof (proj1 (proj2 (X9_reasons_of_context ana agora
                              (visita 1 1 20 (Some 45)) [] 0.8%float Hnb))) as Hiff.
  apply (proj2 Hiff). vm_compute. reflexivity.
Defined.

(** ** The attendance history *)

Section AttendanceHistory.
Import Frequencia.
Context (isoformat : datetime -> string).

Lemma asc_trans : Transitive asc.
Proof. unfold asc. intros a b c. lia. Qed.

Lemma asc_total : Total asc.
Proof. unfold asc. intros a b. lia. Qed.

(** X10. The attendance history answers 404 exactly when no student has the
    id.  Otherwise it lists the rows of the store that carry the student's
    id, each once per row and no other, earliest first, one entry per row
    with the row's id and duration; the total it gives is their number, and
    they are the rows the risk query works on. *)
Theorem X10_attendance_history db id :
  (Frequencia.get isoformat db id = FrequenciaAbort404
   <-> forall a, a ∈ alunos db -> aluno_id a <> id)
  /\ (forall resp, Frequencia.get isoformat db id = FrequenciaOk resp ->
        exists aluno rows,
          get_or_404 db id = Some aluno
          /\ frequencia_aluno_id resp = id
          /\ rows ≡ₚ filter (fun c => id_aluno c = id) (checkins db)
          /\ rows ≡ₚ checkins_do_aluno db aluno
          /\ StronglySorted asc rows
          /\ historico resp = item isoformat <$> rows
          /\ id_checkin <$> historico resp = checkin_id <$> rows
          /\ item_duracao_minutos <$> historico resp = duracao_minutos <$> rows
          /\ total_checkins resp
             = Z.of_nat (length (filter (fun c => id_aluno c = id) (checkins db)))).
Proof.
  unfold Frequencia.get, get_or_404.
  destruct (list_find (fun a => aluno_id a = id) (alunos db)) as [[i a]|] eqn:E; cbn.
  - apply list_find_Some in E as (Hi & Ha & _).
    apply list_elem_of_lookup_2 in Hi.
    split; [split; [discriminate | intros Hall; exfalso; exact (Hall a Hi Ha)]|].
    intros resp [= <-]. cbn.
    assert (Hperm : checkins_do_aluno_asc db a
                    ≡ₚ filter (fun c => id_aluno c = id) (checkins db)).
    { unfold checkins_do_aluno_asc. rewrite merge_sort_Permutation, Ha. reflexivity. }
    exists a, (checkins_do_aluno_asc db a).
    split; [reflexivity|]. split; [exact Ha|]. split; [exact Hperm|].
    split.
    { unfold checkins_do_aluno_asc, checkins_do_aluno.
      rewrite !merge_sort_Permutation. reflexivity. }
    split.
    { apply (@StronglySorted_merge_sort _ asc _ asc_trans asc_total). }
    split; [reflexivity|].
    split; [rewrite <- list_fmap_compose; reflexivity|].
    split; [rewrite <- list_fmap_compose; reflexivity|].
    rewrite length_fmap, (Permutation_length Hperm). reflexivity.
  - apply list_find_None in E. rewrite Forall_forall in E.
    split; [split; [intros _; exact E | reflexivity]|]. discriminate.
Qed.

End AttendanceHistory.

(** * Further properties of the callback *)

Section CallbackMore.
Import MaisExemplos.
Context `{Sklearn}.
Context (json_loads : string -> option json).
Context (fromisoformat : string -> option datetime).
Context (date_isoformat : Z -> string).

Abbreviation handle' := (handle json_loads fromisoformat date_isoformat).
Abbreviation process' := (process_checkin_message json_loads fromisoformat date_isoformat).

(** The handlers print, sleep, query and retrain, and nothing else. *)
Lemma handle_de_handler body : appends de_handler (handle' body).
Proof.
  unfold handle, session_query, mbind, M_bind, mret, M_ret.
  repeat first
    [ apply appends_bind; [|intros ?]
    | apply appends_for_each; intros ?
    | apply appends_ret
    | apply appends_raise
    | apply appends_dict_get
    | apply appends_iter
    | apply appends_rows_between
    | apply appends_now_date
    | apply appends_print; exact I
    | apply appends_sleep; exact I
    | apply appends_emit; exact I
    | apply appends_retrain; exact I
    | match goal with
      | |- appends _ (if ?b then _ else _) => destruct b
      | |- appends _ (match ?x with _ => _ end) => destruct x
      end ].
Qed.

(** The [try] block around a handler: it returns, and its world is the
    handler's with the answer to the broker and the close added. *)
Lemma try_block_result delivery_tag body w0 :
  let h := handle' body w0 in
  let res :=
    try_finally
      (try_except
         (handle' body;;
          emit (BasicAck delivery_tag);;
          print (Confirmada delivery_tag))
         (fun e =>
            match e with
            | JSONDecodeError =>
                print (ErroJson body);;
                emit SessionRollback;;
                emit (BasicNack delivery_tag)
            | _ =>
                print (ErroProcessar e body);;
                emit SessionRollback;;
                emit (BasicNack delivery_tag)
            end))
      (emit SessionClose) w0 in
  res.1 = Return tt
  /\ trace res.2 = trace h.2 ++ desfecho delivery_tag body h.1
  /\ clock res.2 = clock h.2
  /\ store res.2 = store h.2
  /\ churn_predictor_consumer res.2 = churn_predictor_consumer h.2
  /\ files res.2 = files h.2.
Proof.
  intros h res. subst res h.
  unfold try_finally, try_except, mbind, M_bind, bind.
  destruct (handle' body w0) as [[[]|e] w1]; cbn [fst snd].
  - cbn. rewrite <- !app_assoc. auto 10.
  - destruct e; cbn; rewrite <- !app_assoc; auto 10.
Qed.

Lemma process_result delivery_tag body w :
  let w0 := (emit SessionOpen w).2 in
  let h := handle' body w0 in
  let w' := (process' delivery_tag body w).2 in
  (process' delivery_tag body w).1 = Return tt
  /\ trace w' = trace h.2 ++ desfecho delivery_tag body h.1
  /\ clock w' = clock h.2
  /\ store w' = store h.2
  /\ churn_predictor_consumer w' = churn_predictor_consumer h.2
  /\ files w' = files h.2.
Proof.
  intros w0. exact (try_block_result delivery_tag body w0).
Qed.

(** X11. Whatever the message, the callback returns to pika without
    raising; it opens a session first and closes it last; it answers the
    broker exactly once, with an ack or a nack of this delivery; and it rolls
    the session back exactly when it nacks. *)
Theorem X11_callback_protocol delivery_tag body w :
  exists evs,
    (process_checkin_message json_loads fromisoformat date_isoformat delivery_tag body w).1 = Return tt
    /\ trace (process_checkin_message json_loads fromisoformat date_isoformat delivery_tag body w).2 = trace w ++ evs
    /\ head evs = Some SessionOpen
    /\ last evs = Some SessionClose
    /\ (filter resposta evs = [BasicAck delivery_tag]
        \/ filter resposta evs = [BasicNack delivery_tag])
    /\ (SessionRollback ∈ evs <-> BasicNack delivery_tag ∈ evs).
Proof.
  destruct (process_result delivery_tag body w) as (Hret & Htr & _).
  cbv zeta in Htr.
  destruct (handle_de_handler body (emit SessionOpen w).2) as (evs & Hevs & Hh).
  set (r := (handle' body (emit SessionOpen w).2).1) in *.
  exists (SessionOpen :: evs ++ desfecho delivery_tag body r).
  split; [exact Hret|].
  split.
  { rewrite Htr, Hevs. cbn. rewrite <- !app_assoc. reflexivity. }
  split; [reflexivity|].
  assert (Hfil : filter resposta evs = []).
  { clear Hevs. induction Hh as [|e evs He _ IH]; [reflexivity|].
    rewrite filter_cons, IH. destruct e; cbn in He; try contradiction; reflexivity. }
  assert (Hnot : forall e, e ∈ evs -> de_handler e).
  { intros e. rewrite Forall_forall in Hh. apply Hh. }
  split.
  { change (SessionOpen :: evs ++ desfecho delivery_tag body r)
      with ((SessionOpen :: evs) ++ desfecho delivery_tag body r).
    rewrite last_app. destruct r as [[]|[]]; reflexivity. }
  split.
  { rewrite filter_cons, filter_app, Hfil. cbn.
    destruct r as [[]|[]]; cbn; auto. }
  rewrite !elem_of_cons, !elem_of_app. split.
  - intros [Hd|[Hin|Hin]]; [discriminate | exact (False_ind _ (Hnot _ Hin))|].
    right; right. destruct r as [[]|[]]; cbn in *;
      repeat (apply elem_of_cons in Hin as [Hin|Hin]; [try discriminate|]);
      try (inversion Hin; fail);
      repeat (apply elem_of_cons; first [left; reflexivity | right]).
  - intros [Hd|[Hin|Hin]]; [discriminate | exact (False_ind _ (Hnot _ Hin))|].
    right; right. destruct r as [[]|[]]; cbn in *;
      repeat (apply elem_of_cons in Hin as [Hin|Hin]; [try discriminate|]);
      try (inversion Hin; fail);
      repeat (apply elem_of_cons; first [left; reflexivity | right]).
Qed.



Lemma mbind_run {A B} (m : M A) (k : A -> M B) (w0 : world) :
  (m ≫= k) w0
  = match m w0 with
    | (Return a, w1) => k a w1
    | (Raise e, w1) => (Raise e, w1)
    end.
Proof. reflexivity. Qed.







(** X14. A bulk event whose checkin_ids cannot be iterated (null, a boolean
    or a number) is negatively acknowledged: the handler stops at the loop
    with a TypeError, before any item, and the session is rolled back. *)
Theorem X14_bulk_not_iterable delivery_tag body w o :
  let w' := (process_checkin_message json_loads fromisoformat date_isoformat delivery_tag body w).2 in
  let checkin_ids := default (JArr []) (o !! "checkin_ids") in
  json_loads body = Some (JObj o) ->
  o !! "type" = Some (JStr "bulk_checkin_event") ->
  match checkin_ids with
  | JNull | JBool _ | JInt _ | JFloat _ => True
  | JStr _ | JArr _ | JObj _ => False
  end ->
  trace w'
  = trace w ++
    [SessionOpen;
     Print (Recebida (JStr "bulk_checkin_event") (JObj o));
     Print (ProcessandoMassa checkin_ids);
     Print (ErroProcessar TypeError body);
     SessionRollback;
     BasicNack delivery_tag;
     SessionClose]
  /\ clock w' = clock w.
Proof.
  intros w' checkin_ids Hjson Htype Hids. subst w'.
  destruct (process_result delivery_tag body w) as (_ & Htr & Hck & _).
  cbv zeta in *.
  assert (Hh : forall w0, handle' body w0
            = (Raise TypeError,
               {| trace :=
                    trace w0 ++
                    [Print (Recebida (JStr "bulk_checkin_event") (JObj o));
                     Print (ProcessandoMassa checkin_ids)];
                  clock := clock w0;
                  store := store w0;
                  churn_predictor_consumer := churn_predictor_consumer w0;
                  files := files w0 |})).
  { intros w0.
    unfold handle, mbind, M_bind, bind, dict_get, print, emit.
    rewrite Hjson. cbn [ret fst snd]. rewrite Htype. cbn [default id].
    change (printable (Recebida (JStr "bulk_checkin_event") (JObj o))) with true.
    cbn. fold checkin_ids.
    destruct checkin_ids; try contradiction; cbn; rewrite <- ?app_assoc; reflexivity. }
  rewrite Hh in Htr, Hck. cbn in Htr, Hck.
  rewrite Htr, Hck, <- !app_assoc. cbn. auto.
Qed.

Lemma handle_retrain body w0 o :
  json_loads body = Some (JObj o) ->
  o !! "type" = Some (JStr "retrain_model_event") ->
  handle' body w0
  = (Return tt,
     {| trace :=
          trace w0 ++
          [Print (Recebida (JStr "retrain_model_event") (JObj o));
           Print AcionandoRetreinamento; Retrain;
           Print RetreinamentoFinalizado];
        clock := clock w0;
        store := store w0;
        churn_predictor_consumer :=
          (retrain_and_save_model (churn_predictor_consumer w0) (files w0)).1;
        files :=
          (retrain_and_save_model (churn_predictor_consumer w0) (files w0)).2 |}).
Proof.
  intros Hjson Htype.
  unfold handle, mbind, M_bind, bind, dict_get, print, emit, retrain.
  rewrite Hjson. cbn [ret fst snd]. rewrite Htype. cbn [default id].
  change (printable (Recebida (JStr "retrain_model_event") (JObj o))) with true.
  cbn. rewrite <- !app_assoc. reflexivity.
Qed.

(** X15. A retrain event is acknowledged, and leaves the consumer's
    predictor holding the model fitted on the dummy data, saved under the
    predictor's path: a predictor created afterwards on that path, such as
    the API's at its next start, loads this very model. *)
Theorem X15_retrain_event delivery_tag body w o :
  let w' := (process_checkin_message json_loads fromisoformat date_isoformat delivery_tag body w).2 in
  let cp := churn_predictor_consumer w in
  let artifact :=
    LogisticRegression_fit "liblinear" 42
      (select create_dummy_data (features cp)) (col create_dummy_data "churn") in
  json_loads body = Some (JObj o) ->
  o !! "type" = Some (JStr "retrain_model_event") ->
  trace w'
  = trace w ++
    [SessionOpen;
     Print (Recebida (JStr "retrain_model_event") (JObj o));
     Print AcionandoRetreinamento;
     Retrain;
     Print RetreinamentoFinalizado;
     BasicAck delivery_tag;
     Print (Confirmada delivery_tag);
     SessionClose]
  /\ model (churn_predictor_consumer w') = Some artifact
  /\ files w' = <[model_path cp := Dump artifact]> (files w)
  /\ model (init (model_path cp) (files w')).1 = Some artifact
  /\ store w' = store w
  /\ clock w' = clock w.
Proof.
  intros w' cp artifact Hjson Htype. subst w'.
  destruct (process_result delivery_tag body w) as (_ & Htr & Hck & Hst & Hcp & Hfs).
  cbv zeta in *.
  rewrite (handle_retrain body _ o Hjson Htype) in Htr, Hck, Hst, Hcp, Hfs.
  cbn in Htr, Hck, Hst, Hcp, Hfs.
  rewrite Htr, Hck, Hst, Hcp, Hfs, <- !app_assoc. cbn.
  split; [reflexivity|]. split; [reflexivity|]. split; [reflexivity|].
  split; [|auto].
  subst cp artifact. unfold init, load_model. cbn [model_path].
  match goal with
  | |- context [(<[?k := ?v]> ?m) !! ?k] =>
      replace ((<[k := v]> m) !! k) with (Some v)
        by (symmetry; apply (lookup_insert_eq (M:=gmap string)))
  end.
  reflexivity.
Qed.


(** One day after a midnight: the next midnight, and an overflow from
    the last day on. *)
Lemma add_one_day dia :
  add_timedelta {| wall := dia * usec_per_day; tzinfo := Some utc |} (timedelta_days 1)
  = if bool_decide (date_min <= dia + 1 <= date_max)
    then Some {| wall := dia * usec_per_day + timedelta_days 1; tzinfo := Some utc |}
    else None.
Proof.
  unfold add_timedelta, timedelta_days, date_min, date_max, usec_per_day.
  cbn [wall tzinfo].
  destruct (bool_decide _) eqn:E.
  - apply bool_decide_eq_true in E.
    replace (_ && _) with true; [reflexivity|].
    symmetry. apply andb_true_iff. rewrite Z.leb_le, Z.ltb_lt. lia.
  - apply bool_decide_eq_false in E.
    replace (_ && _) with false; [reflexivity|].
    symmetry. apply andb_false_iff. rewrite Z.leb_gt, Z.ltb_ge. lia.
Qed.

(** The report handler up to its query: the date it settles on. *)
Lemma handle_report_date body w0 o :
  json_loads body = Some (JObj o) ->
  o !! "type" = Some (JStr "generate_daily_report_event") ->
  handle' body w0
  = (report_date ←
       match default (JStr (date_isoformat (clock w0 `div` usec_per_day)))
               (o !! "report_date") with
       | JStr s =>
           match fromisoformat s with
           | Some d => ret (wall d `div` usec_per_day)
           | None => raise ValueError
           end
       | _ => raise TypeError
       end;
     print (GerandoRelatorio report_date);;
     end_of_day ←
       match add_timedelta
               {| wall := report_date * usec_per_day; tzinfo := Some utc |}
               (timedelta_days 1) with
       | Some d => ret d
       | None => raise OverflowError
       end;
     daily_checkins ←
       session_query
         {| wall := report_date * usec_per_day; tzinfo := Some utc |} end_of_day;
     print (RelatorioTitulo report_date);;
     print (RelatorioTotal (Z.of_nat (length daily_checkins)));;
     print (RelatorioUnicos
              (Z.of_nat (size (list_to_set (id_aluno <$> daily_checkins) : gset Z))));;
     sleep 3000;;
     print (RelatorioGerado report_date))
      {| trace :=
           trace w0 ++
           [Print (Recebida (JStr "generate_daily_report_event") (JObj o))];
         clock := clock w0;
         store := store w0;
         churn_predictor_consumer := churn_predictor_consumer w0;
         files := files w0 |}.
Proof.
  intros Hjson Htype.
  unfold handle. rewrite mbind_run, Hjson. cbn [ret].
  rewrite mbind_run. cbn [dict_get ret]. rewrite Htype. cbn [default id].
  rewrite (mbind_run (print _)). unfold print at 1.
  change (printable (Recebida (JStr "generate_daily_report_event") (JObj o)))
    with true.
  cbn [emit eq_str String.eqb Ascii.eqb Bool.eqb].
  rewrite (mbind_run now_date). cbn [now_date clock].
  rewrite (mbind_run (ret _)). cbn [ret].
  reflexivity.
Qed.


(** X17. A daily-report event is negatively acknowledged, with nothing
    reported, when its date is not a string (TypeError), when the string is
    no ISO date (ValueError), when the store cannot be reached (the query
    raises), and when the date is 9999-12-31, the day after which no
    [datetime] exists (OverflowError); only when the store could not be
    reached was it asked. *)
Theorem X17_daily_report_failures delivery_tag body w o :
  let w' := (process_checkin_message json_loads fromisoformat date_isoformat delivery_tag body w).2 in
  let report_date :=
    default (JStr (date_isoformat (clock w `div` usec_per_day))) (o !! "report_date") in
  let recebida := Print (Recebida (JStr "generate_daily_report_event") (JObj o)) in
  json_loads body = Some (JObj o) ->
  o !! "type" = Some (JStr "generate_daily_report_event") ->
  (match report_date with JStr _ => False | _ => True end ->
   trace w'
   = trace w ++
     [SessionOpen; recebida; Print (ErroProcessar TypeError body);
      SessionRollback; BasicNack delivery_tag; SessionClose])
  /\ (forall s, report_date = JStr s -> fromisoformat s = None ->
      trace w'
      = trace w ++
        [SessionOpen; recebida; Print (ErroProcessar ValueError body);
         SessionRollback; BasicNack delivery_tag; SessionClose])
  /\ (forall s d, report_date = JStr s -> fromisoformat s = Some d ->
      store w = None ->
      let dia := wall d `div` usec_per_day in
      date_min <= dia < date_max ->
      trace w'
      = trace w ++
        [SessionOpen; recebida; Print (GerandoRelatorio dia);
         SessionQuery
           {| wall := dia * usec_per_day; tzinfo := Some utc |}
           {| wall := dia * usec_per_day + timedelta_days 1; tzinfo := Some utc |};
         Print (ErroProcessar OperationalError body);
         SessionRollback; BasicNack delivery_tag; SessionClose])
  /\ (forall s d, report_date = JStr s -> fromisoformat s = Some d ->
      let dia := wall d `div` usec_per_day in
      date_max <= dia ->
      trace w'
      = trace w ++
        [SessionOpen; recebida; Print (GerandoRelatorio dia);
         Print (ErroProcessar OverflowError body);
         SessionRollback; BasicNack delivery_tag; SessionClose]).
Proof.
  intros w' report_date recebida Hjson Htype. subst w' recebida.
  destruct (process_result delivery_tag body w) as (_ & Htr & _).
  cbv zeta in *.
  rewrite (handle_report_date body _ o Hjson Htype) in Htr.
  cbn [emit snd clock trace store churn_predictor_consumer files] in Htr.
  fold report_date in Htr.
  split; [|split; [|split]].
  - intros Hns. rewrite Htr.
    destruct report_date; try contradiction;
      rewrite !(mbind_run (raise _)); cbn; rewrite <- !app_assoc; reflexivity.
  - intros s Hs Hparse. rewrite Htr, Hs, Hparse.
    rewrite !(mbind_run (raise _)). cbn.
    rewrite <- !app_assoc. reflexivity.
  - intros s d Hs Hparse Hstore Hdia. rewrite Htr, Hs, Hparse.
    rewrite (mbind_run (ret _)). cbn [ret].
    rewrite (mbind_run (print _)). cbn [print printable emit].
    rewrite add_one_day.
    replace (bool_decide (date_min <= wall d `div` usec_per_day + 1 <= date_max))
      with true
      by (symmetry; apply bool_decide_eq_true; unfold date_min in *; lia).
    rewrite (mbind_run (ret _)). cbn [ret].
    rewrite (mbind_run (session_query _ _)).
    unfold session_query. rewrite (mbind_run (emit _)). cbn [emit].
    unfold rows_between. cbn [store]. rewrite Hstore.
    unfold mbind, M_bind, bind. cbn. rewrite <- !app_assoc. reflexivity.
  - intros s d Hs Hparse Hdia. rewrite Htr, Hs, Hparse.
    rewrite (mbind_run (ret _)). cbn [ret].
    rewrite (mbind_run (print _)). cbn [print printable emit].
    rewrite add_one_day.
    replace (bool_decide (date_min <= wall d `div` usec_per_day + 1 <= date_max))
      with false
      by (symmetry; apply bool_decide_eq_false; lia).
    rewrite !(mbind_run (raise _)). cbn. rewrite <- !app_assoc. reflexivity.
Qed.

End CallbackMore.

(** * Properties of the publisher *)

Section Publishing.
Import Rabbitmq.
Context (json_dumps : json -> string).
Context (falha : etapa -> option pika_exn).

Abbreviation publish := (publish_message json_dumps falha).

Abbreviation enviada := (Rabbitmq.enviada falha).
Abbreviation fila_com := (Rabbitmq.fila_com json_dumps).

Lemma publish_cases queue_name message b :
  let r := publish queue_name message b in
  (enviada queue_name b ->
   filas r.2 = <[queue_name := fila_com queue_name message b]> (filas b)
   /\ (r.1 = true <-> falha ConnectionClose = None)
   /\ (falha ConnectionClose = None ->
       stdout r.2 = stdout b ++ [Enviada queue_name message])
   /\ (forall x, falha ConnectionClose = Some x ->
       exists l, stdout r.2 = stdout b ++ [Enviada queue_name message; l]))
  /\ (~ enviada queue_name b ->
      r.1 = false
      /\ (filas r.2 = filas b
          \/ filas b !! queue_name = None
             /\ filas r.2 = <[queue_name := {| durable := true; mensagens := [] |}]> (filas b))).
Proof.
  intros r. subst r. unfold Rabbitmq.enviada, Rabbitmq.fila_com.
  unfold publish_message, mbind, P_bind, queue_declare, basic_publish, imprimir, chamar.
  destruct (falha BlockingConnection) as [x1|] eqn:E1;
    [split; [intros (? & _); discriminate|intros _; destruct x1; cbn; auto]|].
  destruct (falha Channel) as [x2|] eqn:E2;
    [split; [intros (_ & ? & _); discriminate|intros _; destruct x2; cbn; auto]|].
  destruct (filas b !! queue_name) as [q|] eqn:Eq.
  - destruct (durable q) eqn:Ed.
    + destruct (falha QueueDeclare) as [x3|] eqn:E3;
        [split; [intros (_ & _ & ? & _); discriminate|intros _; destruct x3; cbn; auto]|].
      destruct (falha BasicPublish) as [x4|] eqn:E4;
        [split; [intros (_ & _ & _ & ? & _); discriminate
                |intros _; destruct x4; cbn; auto]|].
      cbn. rewrite Eq. cbn. rewrite Ed.
      split.
      * intros _. destruct (falha ConnectionClose) as [x5|] eqn:E5.
        -- destruct x5; cbn; (split; [reflexivity|]);
             (split; [split; discriminate|]);
             (split; [discriminate|]);
             intros x _; eexists; rewrite <- app_assoc; reflexivity.
        -- cbn. split; [reflexivity|]. split; [tauto|].
           split; [reflexivity | discriminate].
      * intros Hn. exfalso. apply Hn. repeat split; auto.
        intros q' [= <-]. exact Ed.
    + split.
      * intros (_ & _ & _ & _ & Hd). specialize (Hd q eq_refl). congruence.
      * intros _. cbn. auto.
  - destruct (falha QueueDeclare) as [x3|] eqn:E3;
      [split; [intros (_ & _ & ? & _); discriminate|intros _; destruct x3; cbn; auto]|].
    destruct (falha BasicPublish) as [x4|] eqn:E4.
    { split; [intros (_ & _ & _ & ? & _); discriminate|].
      intros _. destruct x4; cbn; auto. }
    cbn. rewrite (lookup_insert_eq (M:=gmap string)). cbn.
    rewrite (insert_insert_eq (M:=gmap string)).
    split.
    + intros _. destruct (falha ConnectionClose) as [x5|] eqn:E5.
      * destruct x5; cbn; (split; [reflexivity|]);
          (split; [split; discriminate|]);
          (split; [discriminate|]);
          intros x _; eexists; rewrite <- app_assoc; reflexivity.
      * cbn. split; [reflexivity|]. split; [tauto|].
        split; [reflexivity | discriminate].
    + intros Hn. exfalso. apply Hn. repeat split; auto. discriminate.
Qed.

(** X18. When no call on pika fails and the queue is absent or durable,
    [publish_message] returns [True]; the queue then exists, durable, with
    the serialized message after those it held, marked persistent
    (delivery mode 2); no other queue is changed, and one line is printed. *)
Theorem X18_publish_success queue_name message b :
  let r := publish_message json_dumps falha queue_name message b in
  (forall e, falha e = None) ->
  (forall q, filas b !! queue_name = Some q -> durable q = true) ->
  r.1 = true
  /\ filas r.2 !! queue_name = Some (fila_com queue_name message b)
  /\ last (mensagens (fila_com queue_name message b))
     = Some {| body := json_dumps message; delivery_mode := 2 |}
  /\ (forall other, other <> queue_name -> filas r.2 !! other = filas b !! other)
  /\ stdout r.2 = stdout b ++ [Enviada queue_name message].
Proof.
  intros r Hok Hd.
  destruct (publish_cases queue_name message b) as [Hyes _].
  destruct Hyes as (Hf & Hr & Hs & _); [unfold Rabbitmq.enviada; auto|].
  fold r in Hf, Hr, Hs.
  split; [apply Hr, Hok|].
  split; [rewrite Hf; apply (lookup_insert_eq (M:=gmap string))|].
  split; [apply last_snoc|].
  split; [|apply Hs, Hok].
  intros other Hne. rewrite Hf. apply (lookup_insert_ne (M:=gmap string)). congruence.
Qed.

(** X19. [publish_message] returns [True] exactly when every call on pika
    went through and the queue was absent or durable; in every other case it
    returns [False], and it never raises. *)
Theorem X19_publish_result queue_name message b :
  (publish_message json_dumps falha queue_name message b).1 = true
  <-> (forall e, falha e = None)
      /\ (forall q, filas b !! queue_name = Some q -> durable q = true).
Proof.
  destruct (publish_cases queue_name message b) as [Hyes Hno]. cbv zeta in *.
  split.
  - intros Ht.
    assert (Hen : enviada queue_name b).
    { destruct (decide (falha BlockingConnection = None)) as [E1|E1];
        [|destruct Hno as [Hf _]; [unfold Rabbitmq.enviada; tauto | congruence]].
      destruct (decide (falha Channel = None)) as [E2|E2];
        [|destruct Hno as [Hf _]; [unfold Rabbitmq.enviada; tauto | congruence]].
      destruct (decide (falha QueueDeclare = None)) as [E3|E3];
        [|destruct Hno as [Hf _]; [unfold Rabbitmq.enviada; tauto | congruence]].
      destruct (decide (falha BasicPublish = None)) as [E4|E4];
        [|destruct Hno as [Hf _]; [unfold Rabbitmq.enviada; tauto | congruence]].
      repeat split; auto. intros q Hq.
      destruct (durable q) eqn:Ed; [reflexivity|].
      destruct Hno as [Hf _]; [|congruence].
      intros (_ & _ & _ & _ & Hd). specialize (Hd q Hq). congruence. }
    destruct (Hyes Hen) as (_ & Hr & _).
    destruct Hen as (E1 & E2 & E3 & E4 & Hd).
    split; [|exact Hd]. intros []; auto. apply Hr, Ht.
  - intros [Hok Hd].
    destruct Hyes as (_ & Hr & _); [unfold Rabbitmq.enviada; auto|]. apply Hr, Hok.
Qed.

(** X20. [False] does not tell whether the message is in the queue.  When
    only the closing of the connection fails, [publish_message] returns
    [False] although the message has been enqueued; when the message did not
    get through [basic_publish], no queue holds a message it did not hold
    before. *)
Theorem X20_publish_false_is_ambiguous queue_name message b :
  let r := publish_message json_dumps falha queue_name message b in
  (forall x, enviada queue_name b -> falha ConnectionClose = Some x ->
     r.1 = false
     /\ filas r.2 !! queue_name = Some (fila_com queue_name message b))
  /\ (~ enviada queue_name b ->
      r.1 = false
      /\ forall name q, filas r.2 !! name = Some q ->
           mensagens q = default [] (mensagens <$> filas b !! name)).
Proof.
  intros r. destruct (publish_cases queue_name message b) as [Hyes Hno].
  fold r in Hyes, Hno. split.
  - intros x Hen Hx. destruct (Hyes Hen) as (Hf & Hr & _).
    split.
    + destruct r.1; [|reflexivity]. destruct Hr as [Hr _].
      specialize (Hr eq_refl). congruence.
    + rewrite Hf. apply (lookup_insert_eq (M:=gmap string)).
  - intros Hn. destruct (Hno Hn) as (Hr & Hf). split; [exact Hr|].
    intros name q Hq. destruct Hf as [Hf|[Habs Hf]]; rewrite Hf in Hq.
    + rewrite Hq. reflexivity.
    + destruct (decide (name = queue_name)) as [->|Hne].
      * rewrite (lookup_insert_eq (M:=gmap string)) in Hq. injection Hq as <-.
        rewrite Habs. reflexivity.
      * rewrite (lookup_insert_ne (M:=gmap string)) in Hq by congruence.
        rewrite Hq. reflexivity.
Qed.

End Publishing.

(** * From the retrain route to the consumer *)

Section EndToEnd.
Import Rabbitmq.
Context `{Sklearn}.
Context (json_loads : string -> option json).
Context (fromisoformat : string -> option datetime).
Context (date_isoformat : Z -> string).
Context (json_dumps : json -> string).
Context (falha : etapa -> option pika_exn).

(** X21. The retrain route answers 200 with the same text whatever becomes
    of the publication.  When the publication goes through, the last message
    of the queue checkin_queue is the request, persistent; and a consumer
    whose parser reads back what the route serialized acknowledges it and
    ends up holding the model fitted on the dummy data. *)
Theorem X21_retrain_request_reaches_consumer b delivery_tag w :
  let payload : json := JObj {[ "type" := JStr "retrain_model_event" ]} in
  let r := model_retrain_post json_dumps falha b in
  let cp := churn_predictor_consumer w in
  let artifact :=
    LogisticRegression_fit "liblinear" 42
      (select create_dummy_data (features cp)) (col create_dummy_data "churn") in
  r.1 = ("Solicitação de retreinamento do modelo de churn enviada para a fila.", 200)
  /\ ((forall e, falha e = None) ->
      (forall q, filas b !! "checkin_queue" = Some q -> durable q = true) ->
      json_loads (json_dumps payload) = Some payload ->
      exists q m,
        filas r.2 !! "checkin_queue" = Some q
        /\ last (mensagens q) = Some m
        /\ delivery_mode m = 2
        /\ let w' := (process_checkin_message json_loads fromisoformat date_isoformat
                        delivery_tag (body m) w).2 in
           BasicAck delivery_tag ∈ trace w'
           /\ model (churn_predictor_consumer w') = Some artifact
           /\ files w' !! model_path cp = Some (Dump artifact)).
Proof.
  intros payload r cp artifact. subst r. unfold model_retrain_post.
  fold payload.
  destruct (publish_cases json_dumps falha "checkin_queue" payload b) as [Hyes _].
  destruct (publish_message json_dumps falha "checkin_queue" payload b) as [ok b'] eqn:Ep.
  cbn [fst snd] in *.
  split; [reflexivity|].
  intros Hok Hd Hround.
  destruct Hyes as (Hf & _); [unfold enviada; auto|].
  exists (fila_com json_dumps "checkin_queue" payload b),
         {| body := json_dumps payload; delivery_mode := 2 |}.
  split; [rewrite Hf; apply (lookup_insert_eq (M:=gmap string))|].
  split; [apply last_snoc|]. split; [reflexivity|].
  cbn [body].
  destruct (process_result json_loads fromisoformat date_isoformat
              delivery_tag (json_dumps payload) w) as (_ & Htr & _ & _ & Hcp & Hfs).
  cbv zeta in *.
  rewrite (handle_retrain json_loads fromisoformat date_isoformat
             (json_dumps payload) _ {[ "type" := JStr "retrain_model_event" ]}
             Hround (lookup_singleton_eq (M:=gmap string) _ _)) in Htr, Hcp, Hfs.
  cbn in Htr, Hcp, Hfs.
  split; [|split].
  - rewrite Htr. apply elem_of_app; right.
    repeat (apply elem_of_cons; first [left; reflexivity | right]).
  - rewrite Hcp. reflexivity.
  - rewrite Hfs. apply (lookup_insert_eq (M:=gmap string)).
Qed.

End EndToEnd.

Import MaisExemplos.



Lemma X14_bulk_not_iterable_witness :
  loads2 corpo_bulk_3 = Some (JObj objeto_bulk_3)
  /\ objeto_bulk_3 !! "type" = Some (JStr "bulk_checkin_event")
  /\ default (JArr []) (objeto_bulk_3 !! "checkin_ids") = JInt 3
  /\ clock (entrega2 corpo_bulk_3) = agora.
Proof.
  assert (Hjson : loads2 corpo_bulk_3 = Some (JObj objeto_bulk_3))
    by (vm_compute; reflexivity).
  assert (Htype : objeto_bulk_3 !! "type" = Some (JStr "bulk_checkin_event"))
    by (vm_compute; reflexivity).
  assert (Hids : default (JArr []) (objeto_bulk_3 !! "checkin_ids") = JInt 3)
    by (vm_compute; reflexivity).
  split; [exact Hjson|]. split; [exact Htype|]. split; [exact Hids|].
  refine (proj2 (@X14_bulk_not_iterable (constante 0.8) loads2 de_iso para_iso
                   7 corpo_bulk_3 mundo2 objeto_bulk_3 Hjson Htype _)).
  rewrite Hids. exact I.
Defined.

Lemma X15_retrain_event_witness :
  loads2 corpo_retrain = Some (JObj objeto_retrain)
  /\ objeto_retrain !! "type" = Some (JStr "retrain_model_event")
  /\ trace (entrega2 corpo_retrain)
     = [SessionOpen;
        Print (Recebida (JStr "retrain_model_event") (JObj objeto_retrain));
        Print AcionandoRetreinamento; Retrain; Print RetreinamentoFinalizado;
        BasicAck 7; Print (Confirmada 7); SessionClose].
Proof.
  assert (Hjson : loads2 corpo_retrain = Some (JObj objeto_retrain))
    by (vm_compute; reflexivity).
  assert (Htype : objeto_retrain !! "type" = Some (JStr "retrain_model_event"))
    by (vm_compute; reflexivity).
  split; [exact Hjson|]. split; [exact Htype|].
  exact (proj1 (@X15_retrain_event (constante 0.8) loads2 de_iso para_iso
                  7 corpo_retrain mundo2 objeto_retrain Hjson Htype)).
Defined.


Lemma X17_daily_report_failures_witness :
  (loads2 corpo_relatorio_ruim = Some (JObj objeto_relatorio_ruim)
   /\ de_iso "ontem" = None
   /\ trace (entrega2 corpo_relatorio_ruim)
      = [SessionOpen;
         Print (Recebida (JStr "generate_daily_report_event")
                  (JObj objeto_relatorio_ruim));
         Print (ErroProcessar ValueError corpo_relatorio_ruim);
         SessionRollback; BasicNack 7; SessionClose])
  /\ (loads2 corpo_relatorio_fim = Some (JObj objeto_relatorio_fim)
      /\ de_iso "9999-12-31" = Some {| wall := date_max * usec_per_day; tzinfo := None |}
      /\ trace (entrega2 corpo_relatorio_fim)
         = [SessionOpen;
            Print (Recebida (JStr "generate_daily_report_event")
                     (JObj objeto_relatorio_fim));
            Print (GerandoRelatorio date_max);
            Print (ErroProcessar OverflowError corpo_relatorio_fim);
            SessionRollback; BasicNack 7; SessionClose]).
Proof.
  assert (Hjson : loads2 corpo_relatorio_ruim = Some (JObj objeto_relatorio_ruim))
    by (vm_compute; reflexivity).
  assert (Htype : objeto_relatorio_ruim !! "type"
                  = Some (JStr "generate_daily_report_event"))
    by (vm_compute; reflexivity).
  assert (Hdate : default (JStr (para_iso (clock mundo2 `div` usec_per_day)))
                    (objeto_relatorio_ruim !! "report_date") = JStr "ontem")
    by (vm_compute; reflexivity).
  assert (Hparse : de_iso "ontem" = None) by reflexivity.
  assert (Hjson' : loads2 corpo_relatorio_fim = Some (JObj objeto_relatorio_fim))
    by (vm_compute; reflexivity).
  assert (Htype' : objeto_relatorio_fim !! "type"
                   = Some (JStr "generate_daily_report_event"))
    by (vm_compute; reflexivity).
  assert (Hdate' : default (JStr (para_iso (clock mundo2 `div` usec_per_day)))
                     (objeto_relatorio_fim !! "report_date") = JStr "9999-12-31")
    by (vm_compute; reflexivity).
  assert (Hparse' : de_iso "9999-12-31"
                    = Some {| wall := date_max * usec_per_day; tzinfo := None |})
    by reflexivity.
  split.
  - split; [exact Hjson|]. split; [exact Hparse|].
    exact (proj1 (proj2 (@X17_daily_report_failures (constante 0.8) loads2 de_iso
                           para_iso 7 corpo_relatorio_ruim mundo2
                           objeto_relatorio_ruim Hjson Htype)) "ontem" Hdate Hparse).
  - split; [exact Hjson'|]. split; [exact Hparse'|].
    pose proof (proj2 (proj2 (proj2 (@X17_daily_report_failures (constante 0.8) loads2
                  de_iso para_iso 7 corpo_relatorio_fim mundo2
                  objeto_relatorio_fim Hjson' Htype'))) "9999-12-31" _ Hdate' Hparse')
      as Htr.
    unfold entrega2. rewrite Htr; [vm_compute; reflexivity|].
    vm_compute. discriminate.
Defined.

Lemma X18_publish_success_witness :
  (forall e, sem_falha e = None)
  /\ (forall q, filas broker_vazio !! "checkin_queue" = Some q -> durable q = true)
  /\ publish_message dumps sem_falha "checkin_queue" (JObj objeto_retrain) broker_vazio
     = (true,
        {| filas :=
             {[ "checkin_queue" :=
                  {| durable := true;
                     mensagens := [{| body := corpo_retrain; delivery_mode := 2 |}] |} ]};
           stdout := [Enviada "checkin_queue" (JObj objeto_retrain)] |}).
Proof.
  assert (Hok : forall e, sem_falha e = None) by reflexivity.
  assert (Hd : forall q, filas broker_vazio !! "checkin_queue" = Some q -> durable q = true)
    by (intros q Hq; vm_compute in Hq; discriminate).
  split; [exact Hok|]. split; [exact Hd|].
  destruct (X18_publish_success dumps sem_falha "checkin_queue"
              (JObj objeto_retrain) broker_vazio Hok Hd) as (Htrue & _ & _ & _ & Hout).
  destruct (publish_message dumps sem_falha "checkin_queue" (JObj objeto_retrain)
              broker_vazio) as [ok b'] eqn:Ep.
  cbn [fst snd] in Htrue, Hout. subst ok.
  vm_compute in Ep. injection Ep as <-. reflexivity.
Defined.

Lemma X21_retrain_request_reaches_consumer_witness :
  loads2 (dumps (JObj objeto_retrain)) = Some (JObj objeto_retrain)
  /\ (@model_retrain_post dumps sem_falha broker_vazio).1
     = ("Solicitação de retreinamento do modelo de churn enviada para a fila.", 200).
Proof.
  split; [vm_compute; reflexivity|].
  exact (proj1 (@X21_retrain_request_reaches_consumer (constante 0.8) loads2 de_iso
                  para_iso dumps sem_falha broker_vazio 7 mundo2)).
Defined.
